(** * misconnect: the HTTP handlers of [server.js]

    A shallow embedding of the Express route handlers of [src/server.js]
    and the properties of their responses.

    Layout:
    - [Num]: JavaScript numbers as IEEE-754 binary64 values
      ([spec_float] at precision 53 and maximal exponent 1024), with the
      two conversions the handlers reach through [Number(..)] and
      [String(..)]: [string_to_number] and [number_to_string];
    - [JS]: JavaScript values, truthiness, [||], [+], [Number], [String],
      property keys, and property access on plain objects (own properties,
      then [Object.prototype]);
    - [Mongo]: the driver calls used by the handlers ([find({}).toArray()],
      [findOne], [countDocuments]) over a store whose queries may reject;
    - the handlers of the routes that transform what they read, in the
      order of [server.js];
    - the vocabulary of the properties;
    - the remaining routes (/api/collections, /api/dealers,
      /api/cooperatives, /api/data-structure), the last one over objects
      that keep the order of their properties;
    - the sample collections;
    - the properties: of the numbers first, then of each handler.

    Modelling boundaries.
    - A string is a sequence of code units below 256 ([String.string]).
    - A document is a plain object whose fields hold [undefined], [null],
      booleans, numbers, strings, arrays or plain objects; driver wrapper
      classes (ObjectId, Date, Decimal128, ...) are not represented.
    - A handler's result is the status code and the object given to
      [res.json]; the JSON text written by Express and the [console.error]
      lines are not represented.
    - [POST /api/login] receives two strings, and [findOne] selects the
      first document whose [username] and [password] fields are exactly
      these strings. *)

From Stdlib Require Import ZArith String Ascii Decimal DecimalString.
From Stdlib Require Import Floats.SpecFloat.
From stdpp Require Import gmap strings list sorting.

Set Default Proof Using "Type".

(* ===================================================================== *)
(** * JavaScript numbers                                                  *)
(* ===================================================================== *)

Module Num.
Local Open Scope Z_scope.

Abbreviation number := spec_float.

Definition prec : Z := 53.
Definition emax : Z := 1024.

Definition zero : number := S754_zero false.
Definition nan : number := S754_nan.
Definition infinity (neg : bool) : number := S754_infinity neg.

(** [a + b] on two numbers. *)
Definition add (a b : number) : number := SFadd prec emax a b.

(** The number nearest to an integer (ties to even). *)
Definition of_Z (z : Z) : number := binary_normalize prec emax z 0 false.

Definition is_nan (x : number) : bool :=
  match x with S754_nan => true | _ => false end.

Definition is_zero (x : number) : bool :=
  match x with S754_zero _ => true | _ => false end.


(** Same value, bit for bit ([+0] and [-0] differ). *)
Definition same (a b : number) : bool :=
  match a, b with
  | S754_zero s, S754_zero t => Bool.eqb s t
  | S754_infinity s, S754_infinity t => Bool.eqb s t
  | S754_nan, S754_nan => true
  | S754_finite s m e, S754_finite t n f =>
      Bool.eqb s t && Pos.eqb m n && Z.eqb e f
  | _, _ => false
  end.

(** What [x || 0] is for a number [x]. *)
Definition or_zero (x : number) : number :=
  if is_zero x || is_nan x then zero else x.

(** The integer a number is, when it is one. *)
Definition integer_value (x : number) : option Z :=
  match x with
  | S754_zero _ => Some 0
  | S754_finite s m e =>
      if 0 <=? e then Some (cond_Zopp s (Z.pos m * 2 ^ e))
      else if Z.pos m mod 2 ^ (- e) =? 0
           then Some (cond_Zopp s (Z.pos m / 2 ^ (- e)))
           else None
  | _ => None
  end.


(** The number nearest to [m * 10^e] for [m >= 0], with the sign [neg]:
    an integer is rounded directly, a fraction through the quotient, its
    remainder deciding the rounding direction. *)
Definition of_decimal (neg : bool) (m e : Z) : number :=
  match m with
  | Z0 => S754_zero neg
  | Zpos _ =>
      if 0 <=? e then binary_round prec emax neg (Z.to_pos (m * 10 ^ e)) 0
      else
        let '(q, e', l) := SFdiv_core_binary prec emax m 0 (10 ^ (- e)) 0 in
        binary_round_aux prec emax neg q e' l
  | Zneg _ => nan
  end.

(** ** StringToNumber *)

Definition code (c : ascii) : Z := Z.of_nat (nat_of_ascii c).

(** White space and line terminators among the code units below 256. *)
Definition is_white_space (c : ascii) : bool :=
  let n := code c in
  ((9 <=? n) && (n <=? 13)) || (n =? 32) || (n =? 160).

Fixpoint trim_start (cs : list ascii) : list ascii :=
  match cs with
  | c :: r => if is_white_space c then trim_start r else cs
  | [] => []
  end.

Definition trim (cs : list ascii) : list ascii :=
  rev (trim_start (rev (trim_start cs))).

(** The value of [0]-[9], [a]-[f], [A]-[F]. *)
Definition hex_value (c : ascii) : option Z :=
  let n := code c in
  if (48 <=? n) && (n <=? 57) then Some (n - 48)
  else if (97 <=? n) && (n <=? 102) then Some (n - 87)
  else if (65 <=? n) && (n <=? 70) then Some (n - 55)
  else None.

Definition digit_value (base : Z) (c : ascii) : option Z :=
  match hex_value c with
  | Some v => if v <? base then Some v else None
  | None => None
  end.

(** Reads the longest run of digits: the value accumulated onto [acc],
    the number of digits read, and what follows. *)
Fixpoint read_digits (base : Z) (cs : list ascii) (acc count : Z)
  : Z * Z * list ascii :=
  match cs with
  | c :: r =>
      match digit_value base c with
      | Some d => read_digits base r (acc * base + d) (count + 1)
      | None => (acc, count, cs)
      end
  | [] => (acc, count, [])
  end.

Definition is_char (c : ascii) (s : string) : bool :=
  match s with
  | String d EmptyString => Ascii.eqb c d
  | _ => false
  end.

(** [0x..], [0o..], [0b..]: at least one digit and nothing after. *)
Definition parse_radix (base : Z) (cs : list ascii) : number :=
  match read_digits base cs 0 0 with
  | (v, n, []) => if 0 <? n then of_Z v else nan
  | _ => nan
  end.

Definition read_sign (cs : list ascii) : bool * list ascii :=
  match cs with
  | c :: r =>
      if is_char c "-" then (true, r)
      else if is_char c "+" then (false, r)
      else (false, cs)
  | [] => (false, [])
  end.

(** The exponent after [e] or [E]: a sign, at least one digit, nothing
    after. *)
Definition parse_exponent (cs : list ascii) : option Z :=
  let '(neg, r) := read_sign cs in
  match read_digits 10 r 0 0 with
  | (v, n, []) => if 0 <? n then Some (if neg then - v else v) else None
  | _ => None
  end.

Definition parse_decimal (cs : list ascii) : number :=
  let '(neg, cs1) := read_sign cs in
  if String.eqb (string_of_list_ascii cs1) "Infinity" then infinity neg
  else
    let '(ip, ni, cs2) := read_digits 10 cs1 0 0 in
    let '(m, nf, cs3) :=
      match cs2 with
      | c :: r => if is_char c "." then read_digits 10 r ip 0 else (ip, 0, cs2)
      | [] => (ip, 0, cs2)
      end in
    if ni + nf =? 0 then nan
    else
      match cs3 with
      | [] => of_decimal neg m (- nf)
      | c :: r =>
          if is_char c "e" || is_char c "E" then
            match parse_exponent r with
            | Some x => of_decimal neg m (x - nf)
            | None => nan
            end
          else nan
      end.

Definition string_to_number (s : string) : number :=
  match trim (list_ascii_of_string s) with
  | [] => zero
  | c :: d :: r =>
      if is_char c "0" && (is_char d "x" || is_char d "X") then parse_radix 16 r
      else if is_char c "0" && (is_char d "o" || is_char d "O") then parse_radix 8 r
      else if is_char c "0" && (is_char d "b" || is_char d "B") then parse_radix 2 r
      else parse_decimal (c :: d :: r)
  | cs => parse_decimal cs
  end.

(** ** Number::toString (radix 10) *)

Definition decimal_of_pos (p : positive) : string :=
  NilEmpty.string_of_uint (Pos.to_uint p).

Definition decimal_of_Z (z : Z) : string :=
  match z with
  | Z0 => "0"
  | Zpos p => decimal_of_pos p
  | Zneg p => String "-" (decimal_of_pos p)
  end.

Definition digit_count (z : Z) : Z :=
  Z.of_nat (String.length (decimal_of_Z (Z.abs z))).

(** [num/den < 10^p], for [den > 0]. *)
Definition below_power (num den p : Z) : bool :=
  if 0 <=? p then num <? den * 10 ^ p else num * 10 ^ (- p) <? den.

(** The [n] with [10^(n-1) <= num/den < 10^n], for [num, den > 0]. *)
Definition decimal_exponent (num den : Z) : Z :=
  let d := digit_count num - digit_count den in
  if below_power num den d then d else d + 1.

(** [num/den] divided by [10^p], as a fraction again. *)
Definition scale (num den p : Z) : Z * Z :=
  if 0 <=? p then (num, den * 10 ^ p) else (num * 10 ^ (- p), den).

(** The [k]-digit decimal [s * 10^(n-k)] next to [num/den] that reads
    back as [x], if there is one: of the two neighbours the nearer one,
    the even one on a tie. *)
Definition digits_at (x : number) (num den n k : Z) : option Z :=
  let p := n - k in
  let '(num', den') := scale num den p in
  let lo := num' / den' in
  let r := num' mod den' in
  let ok_lo := (0 <? lo) && same (of_decimal false lo p) x in
  let ok_hi := same (of_decimal false (lo + 1) p) x in
  let prefer_lo :=
    match 2 * r ?= den' with
    | Lt => true
    | Eq => Z.even lo
    | Gt => false
    end in
  if ok_lo && (prefer_lo || negb ok_hi) then Some lo
  else if ok_hi then Some (lo + 1)
  else None.

(** The digits [s] and their number [k], for the least [k] from the given
    one on; seventeen digits always read back, and the seventeen-digit
    floor closes the search. *)
Fixpoint shortest_digits (fuel : nat) (x : number) (num den n k : Z)
  : Z * Z :=
  match fuel with
  | O => let '(num', den') := scale num den (n - 17) in (num' / den', 17)
  | S fuel' =>
      match digits_at x num den n k with
      | Some s => (s, k)
      | None => shortest_digits fuel' x num den n (k + 1)
      end
  end.

Definition zeros (n : Z) : string :=
  string_of_list_ascii (repeat "0"%char (Z.to_nat n)).

Definition take_string (n : Z) (s : string) : string :=
  string_of_list_ascii (take (Z.to_nat n) (list_ascii_of_string s)).

Definition drop_string (n : Z) (s : string) : string :=
  string_of_list_ascii (drop (Z.to_nat n) (list_ascii_of_string s)).

(** The text of the positive number with digits [ds] ([k] of them) and
    decimal exponent [n]. *)
Definition format_digits (ds : string) (k n : Z) : string :=
  if (k <=? n) && (n <=? 21) then ds +:+ zeros (n - k)
  else if (0 <? n) && (n <=? 21) then
    take_string n ds +:+ "." +:+ drop_string n ds
  else if (-6 <? n) && (n <=? 0) then "0." +:+ zeros (- n) +:+ ds
  else
    let e := n - 1 in
    let es := (if e <? 0 then "-" else "+") +:+ decimal_of_Z (Z.abs e) in
    if k =? 1 then ds +:+ "e" +:+ es
    else take_string 1 ds +:+ "." +:+ drop_string 1 ds +:+ "e" +:+ es.

Definition positive_to_string (m : positive) (e : Z) : string :=
  let x := binary_round prec emax false m e in
  let num := if 0 <=? e then Zpos m * 2 ^ e else Zpos m in
  let den := if 0 <=? e then 1 else 2 ^ (- e) in
  let n := decimal_exponent num den in
  let '(s, k) := shortest_digits 17 x num den n 1 in
  (* a candidate [10^k] is the digit 1 one decimal place higher *)
  if s =? 10 ^ k then format_digits "1" 1 (n + 1)
  else format_digits (decimal_of_Z s) k n.

Definition number_to_string (x : number) : string :=
  match x with
  | S754_nan => "NaN"
  | S754_zero _ => "0"
  | S754_infinity s => if s then "-Infinity" else "Infinity"
  | S754_finite s m e =>
      (if s then "-" else "") +:+ positive_to_string m e
  end.

End Num.

(* ===================================================================== *)
(** * JavaScript values                                                   *)
(* ===================================================================== *)

Module JS.
Import Num.

#[warnings="-register-all"]
Inductive value :=
| VUndefined
| VNull
| VBool (b : bool)
| VNum (x : number)
| VStr (s : string)
| VObj (o : gmap string value)   (* a plain object: its own properties *)
| VArr (l : list value)
| VFun (name : string).          (* a built-in function object *)

Abbreviation object := (gmap string value).

(** ToBoolean. *)
Definition truthy (v : value) : bool :=
  match v with
  | VUndefined | VNull => false
  | VBool b => b
  | VNum x => negb (is_zero x || is_nan x)
  | VStr s => negb (String.eqb s "")
  | VObj _ | VArr _ | VFun _ => true
  end.

(** [a || b]. *)
Definition or (a b : value) : value := if truthy a then a else b.

(** The text of a built-in function. *)
Definition native_source (name : string) : string :=
  "function " +:+ name +:+ "() { [native code] }".

(** ToString; an array joins its elements with commas, [undefined] and
    [null] elements giving the empty text. *)
Fixpoint to_string (v : value) : string :=
  match v with
  | VUndefined => "undefined"
  | VNull => "null"
  | VBool b => if b then "true" else "false"
  | VNum x => number_to_string x
  | VStr s => s
  | VObj _ => "[object Object]"
  | VArr l =>
      String.concat ","
        (map (fun x => match x with
                       | VUndefined | VNull => ""
                       | _ => to_string x
                       end) l)
  | VFun name => native_source name
  end.

(** ToPrimitive: objects, arrays and functions go through [toString]. *)
Definition to_primitive (v : value) : value :=
  match v with
  | VObj _ | VArr _ | VFun _ => VStr (to_string v)
  | _ => v
  end.

(** ToNumber. *)
Definition to_number (v : value) : number :=
  match to_primitive v with
  | VUndefined => nan
  | VNull => zero
  | VBool b => if b then of_Z 1 else zero
  | VNum x => x
  | VStr s => string_to_number s
  | _ => nan
  end.

(** [Number(v)] and [String(v)]. *)
Definition Number (v : value) : value := VNum (to_number v).
Definition String (v : value) : value := VStr (to_string v).

(** [a + b]: concatenation as soon as one side is a string once reduced
    to a primitive, the sum of the two numbers otherwise. *)
Definition plus (a b : value) : value :=
  match to_primitive a, to_primitive b with
  | VStr s, b' => VStr (s +:+ to_string b')
  | a', VStr t => VStr (to_string a' +:+ t)
  | a', b' => VNum (add (to_number a') (to_number b'))
  end.

(** ToPropertyKey. *)
Definition to_property_key (v : value) : string := to_string v.

(** The function-valued properties of [Object.prototype]. *)
Definition object_prototype_functions : list string :=
  [ "constructor"; "hasOwnProperty"; "isPrototypeOf";
    "propertyIsEnumerable"; "toLocaleString"; "toString"; "valueOf";
    "__defineGetter__"; "__defineSetter__";
    "__lookupGetter__"; "__lookupSetter__" ].

Definition on_object_prototype (k : string) : bool :=
  existsb (String.eqb k) ("__proto__" :: object_prototype_functions).

(** What a plain object without own property [k] answers for [o[k]]:
    the inherited function, [Object.prototype] itself for [__proto__]
    (an object; it prints as any plain object), [undefined] otherwise. *)
Definition inherited (k : string) : value :=
  if existsb (String.eqb k) object_prototype_functions then
    VFun (if String.eqb k "constructor" then "Object" else k)
  else if String.eqb k "__proto__" then VObj ∅
  else VUndefined.

(** [o[k]] and [o.k]. *)
Definition get (o : object) (k : string) : value :=
  match o !! k with
  | Some v => v
  | None => inherited k
  end.

(** [o[k] = v] for a primitive [v]: an own property is created or
    updated, except that [__proto__], when it is not an own property, is
    the accessor of [Object.prototype], whose setter ignores
    primitives. *)
Definition set (o : object) (k : string) (v : value) : object :=
  match o !! k with
  | None => if String.eqb k "__proto__" then o else <[k := v]> o
  | Some _ => <[k := v]> o
  end.

(** An object literal [{k1: v1, ..., kn: vn}]. *)
Definition literal (fields : list (string * value)) : value :=
  VObj (foldl (fun o kv => <[kv.1 := kv.2]> o) ∅ fields).

End JS.

(* ===================================================================== *)
(** * The MongoDB driver                                                  *)
(* ===================================================================== *)

Module Mongo.
Import JS.

Abbreviation document := (gmap string value).

(** An awaited driver call: it resolves with a value or rejects. *)
Inductive promise (A : Type) : Type :=
| Resolved (a : A)
| Rejected.
Arguments Resolved {A} a.
Arguments Rejected {A}.

Definition bind {A B} (p : promise A) (k : A -> promise B) : promise B :=
  match p with
  | Resolved a => k a
  | Rejected => Rejected
  end.

(** [Promise.all]: every result in order, or the rejection. *)
Fixpoint all {A} (ps : list (promise A)) : promise (list A) :=
  match ps with
  | [] => Resolved []
  | p :: ps' =>
      bind p (fun a => bind (all ps') (fun l => Resolved (a :: l)))
  end.

(** [mongoose.connection.db]: what reading each named collection gives,
    its documents in natural order or a failure. *)
Definition db := string -> promise (list document).

(** [collection(name).find({}).toArray()]. *)
Definition toArray (conn : db) (name : string) : promise (list document) :=
  conn name.

(** [collection(name).countDocuments()]. *)
Definition countDocuments (conn : db) (name : string) : promise value :=
  bind (conn name)
    (fun docs => Resolved (VNum (Num.of_Z (Z.of_nat (length docs))))).

(** [collection(name).findOne(query)]: the first document that matches,
    [None] standing for [null]. *)
Definition findOne (conn : db) (name : string) (query : document -> bool)
  : promise (option document) :=
  bind (conn name) (fun docs => Resolved (List.find query docs)).

(** The query [{ k: s }] for a string [s]. *)
Definition field_equals (k s : string) (d : document) : bool :=
  match d !! k with
  | Some (VStr t) => String.eqb t s
  | _ => false
  end.

End Mongo.

(* ===================================================================== *)
(** * The route handlers of server.js                                     *)
(* ===================================================================== *)

Import JS Mongo.

#[global] Instance promise_ret : MRet promise := @Resolved.
#[global] Instance promise_bind : MBind promise := fun _ _ k p => bind p k.

Record response := { status : Z; body : value }.

(** [res.json(b)] answers with status 200, [res.status(c).json(b)] with
    status [c]. *)
Definition json (b : value) : response := {| status := 200; body := b |}.
Definition status_json (c : Z) (b : value) : response :=
  {| status := c; body := b |}.

(** [try { ... } catch (error) { ... }] around the awaited calls. *)
Definition try_catch (p : promise response) (handler : response) : response :=
  match p with
  | Resolved r => r
  | Rejected => handler
  end.

Definition error_body (message : string) : value :=
  literal [("success", VBool false); ("message", VStr message)].

(** ** POST /api/login *)

(** The query [{ username, password }]. *)
Definition credentials (username password : string) (d : document) : bool :=
  field_equals "username" username d && field_equals "password" password d.

Definition login (conn : db) (username password : string) : response :=
  try_catch
    (user ← findOne conn "UsersMIS" (credentials username password);
     mret
       match user with
       | Some user =>
           json (literal
             [("success", VBool true);
              ("user", literal
                 [("username", get user "username");
                  ("role", or (get user "role") (VStr "user"));
                  ("name", or (get user "name") (get user "username"))])])
       | None => status_json 401 (error_body "Invalid credentials")
       end)
    (status_json 500 (error_body "Server error")).

(** ** GET /api/collections/:collectionName *)

Definition collection_by_name (conn : db) (collectionName : string)
  : response :=
  try_catch
    (data ← toArray conn collectionName;
     mret (json (literal [("success", VBool true);
                          ("data", VArr (VObj <$> data))])))
    (status_json 500 (error_body "Error fetching data")).

(** ** GET /api/participants *)

Definition string_or_empty (p : document) (k : string) : value :=
  String (or (get p k) (VStr "")).

Definition clean_participant (p : document) : document :=
  <["EthnicCultureBACKGROUND" := string_or_empty p "EthnicCultureBACKGROUND"]>
  (<["pAddressDISTRICT" := string_or_empty p "pAddressDISTRICT"]>
  (<["WorkingSectorP4P" := string_or_empty p "WorkingSectorP4P"]>
  (<["ParticipantGENDER" := string_or_empty p "ParticipantGENDER"]>
  (<["ParticipantNAME" := string_or_empty p "ParticipantNAME"]>
  (<["ID" := string_or_empty p "ID"]> p))))).

Definition participants (conn : db) : response :=
  try_catch
    (data ← toArray conn "ParticipantPROFILE";
     let cleanedData := clean_participant <$> data in
     mret (json (literal [("success", VBool true);
                          ("data", VArr (VObj <$> cleanedData))])))
    (status_json 500 (error_body "Error fetching data")).

(** ** GET /api/leverages *)

Record leverage_acc := { byEntity : object; totalAmount : value }.

(** [Number(item.Amount) || 0]. *)
Definition amount (item : document) : value :=
  or (Number (get item "Amount")) (VNum Num.zero).

(** The callback of [data.reduce]. *)
Definition leverage_step (acc : leverage_acc) (item : document)
  : leverage_acc :=
  let entity := or (get item "Entity") (VStr "Unknown") in
  let key := to_property_key entity in
  let byEntity' :=
    set (byEntity acc) key
      (plus (or (get (byEntity acc) key) (VNum Num.zero)) (amount item)) in
  {| byEntity := byEntity';
     totalAmount := plus (totalAmount acc) (amount item) |}.

Definition leverageStats (data : list document) : leverage_acc :=
  foldl leverage_step {| byEntity := ∅; totalAmount := VNum Num.zero |} data.

Definition leverages (conn : db) : response :=
  try_catch
    (data ← toArray conn "Leverages";
     let stats := leverageStats data in
     mret (json (literal
       [("success", VBool true);
        ("data", literal [("byEntity", VObj (byEntity stats));
                          ("totalAmount", totalAmount stats)])])))
    (status_json 500 (error_body "Error fetching data")).

(** ** GET /api/market-surveys *)

Definition market_surveys (conn : db) : response :=
  try_catch
    (counts ← all [ countDocuments conn "MarketSurveyAQUA";
                    countDocuments conn "MarketSurveyCATTLE";
                    countDocuments conn "MarketSurveyFH";
                    countDocuments conn "MarketSurveyMAIZE";
                    countDocuments conn "MarketSurveyPOULTRY";
                    countDocuments conn "MarketSurveyQSR" ];
     let aqua := nth 0 counts VUndefined in
     let cattle := nth 1 counts VUndefined in
     let fh := nth 2 counts VUndefined in
     let maize := nth 3 counts VUndefined in
     let poultry := nth 4 counts VUndefined in
     let qsr := nth 5 counts VUndefined in
     mret (json (literal
       [("success", VBool true);
        ("data", literal [("aqua", aqua); ("cattle", cattle); ("fh", fh);
                          ("maize", maize); ("poultry", poultry);
                          ("qsr", qsr)])])))
    (status_json 500 (error_body "Error fetching data")).

(** ** GET /api/productivity *)

Record productivity_acc := {
  sectors : list value;
  baseline : list value;
  earlyassessment : list value;
  growth : list value
}.

(** The callback of [data.reduce]: one [push] per array. *)
Definition productivity_step (acc : productivity_acc) (item : document)
  : productivity_acc :=
  {| sectors := sectors acc ++ [get item "Sector"];
     baseline := baseline acc ++ [get item "BaseLine"];
     earlyassessment :=
       earlyassessment acc ++ [get item "Early Productivity Assessment"];
     growth := growth acc ++ [get item "% Growth"] |}.

Definition productivityData (data : list document) : productivity_acc :=
  foldl productivity_step
    {| sectors := []; baseline := []; earlyassessment := []; growth := [] |}
    data.

Definition productivity_body (acc : productivity_acc) : value :=
  literal [("sectors", VArr (sectors acc));
           ("baseline", VArr (baseline acc));
           ("earlyassessment", VArr (earlyassessment acc));
           ("growth", VArr (growth acc))].

Definition productivity (conn : db) : response :=
  try_catch
    (data ← toArray conn "Productivity";
     mret (json (literal [("success", VBool true);
                          ("data", productivity_body (productivityData data))])))
    (status_json 500 (error_body "Error fetching data")).

(** ** GET /api/a2f and GET /api/a2m *)

(** [Number(item.k) || 0]. *)
Definition number_or_zero (item : document) (k : string) : value :=
  or (Number (get item k)) (VNum Num.zero).

Definition clean_a2f (item : document) : document :=
  <["InsuranceCOVERAGE" := number_or_zero item "InsuranceCOVERAGE"]>
  (<["InsurancePERIOD" := number_or_zero item "InsurancePERIOD"]>
  (<["InterestRATE" := number_or_zero item "InterestRATE"]>
  (<["LoanPERIOD" := number_or_zero item "LoanPERIOD"]>
  (<["LoanAmountAPPROVED" := number_or_zero item "LoanAmountAPPROVED"]>
  (<["LoanAmountAPPLIED" := number_or_zero item "LoanAmountAPPLIED"]>
  (<["ParticipantAGE" := number_or_zero item "ParticipantAGE"]>
  (<["ParticipantID" := number_or_zero item "ParticipantID"]> item))))))).

Definition a2f (conn : db) : response :=
  try_catch
    (data ← toArray conn "A2F";
     let cleanedData := clean_a2f <$> data in
     mret (json (literal [("success", VBool true);
                          ("data", VArr (VObj <$> cleanedData))])))
    (status_json 500 (error_body "Error fetching data")).

Definition clean_a2m (item : document) : document :=
  <["AmountSOLD" := number_or_zero item "AmountSOLD"]>
  (<["QtySOLD" := number_or_zero item "QtySOLD"]>
  (<["EntityPHONE" := number_or_zero item "EntityPHONE"]>
  (<["MarginalizedSTATUS" := number_or_zero item "MarginalizedSTATUS"]>
  (<["ParticipantAGE" := number_or_zero item "ParticipantAGE"]>
  (<["ParticipantID" := number_or_zero item "ParticipantID"]> item))))).

Definition a2m (conn : db) : response :=
  try_catch
    (data ← toArray conn "A2M";
     let cleanedData := clean_a2m <$> data in
     mret (json (literal [("success", VBool true);
                          ("data", VArr (VObj <$> cleanedData))])))
    (status_json 500 (error_body "Error fetching data")).

(** ** The collections list *)

Definition VALID_COLLECTIONS : list string :=
  [ "ParticipantPROFILE"; "DealerPROFILE"; "CooperativePROFILE";
    "AgrovetPROFILE"; "A2F"; "A2M" ].

(* ===================================================================== *)
(** * The vocabulary of the properties                                    *)
(* ===================================================================== *)

(** ** Responses *)

(** [{success: true, data}] with status 200. *)
Definition success_data (data : value) : response :=
  json (literal [("success", VBool true); ("data", data)]).

(** [{success: true, user: {username, role, name}}] with status 200. *)
Definition login_success (username : string) (role name : value) : response :=
  json (literal
    [("success", VBool true);
     ("user", literal [("username", VStr username);
                       ("role", role);
                       ("name", name)])]).

(** The [data] of /api/leverages. *)
Definition leverages_body (by_entity : object) (total : Num.number) : value :=
  literal [("byEntity", VObj by_entity); ("totalAmount", VNum total)].

(** ** Stored fields and their defaults *)

(** The stored field [k], or [default] when the document has no such
    field. *)
Definition stored_or (user : document) (k : string) (default : value)
  : value :=
  match user !! k with
  | Some v => v
  | None => default
  end.

(** The stored field [k] when it is there and truthy, [default] when it is
    absent or falsy ([null], [false], [0], NaN, the empty string). *)
Definition truthy_or (user : document) (k : string) (default : value)
  : value :=
  match user !! k with
  | Some v => if truthy v then v else default
  | None => default
  end.


(** The stored field [k] converted to a string when it is there and
    truthy, the empty string when it is absent or falsy. *)
Definition string_of_truthy (p : document) (k : string) : string :=
  match p !! k with
  | Some v => if truthy v then to_string v else ""
  | None => ""
  end.

(** ** Numeric texts *)


Definition decimal_digit (c : ascii) : bool :=
  ((48 <=? Num.code c) && (Num.code c <=? 57))%Z.

(** The integer written by decimal digits. *)
Definition decimal_value (cs : list ascii) : Z :=
  foldl (λ acc c, acc * 10 + (Num.code c - 48))%Z 0%Z cs.

(** ** The designated fields *)

Definition participant_string_fields : list string :=
  [ "ID"; "ParticipantNAME"; "ParticipantGENDER"; "WorkingSectorP4P";
    "pAddressDISTRICT"; "EthnicCultureBACKGROUND" ].

Definition a2f_number_fields : list string :=
  [ "ParticipantID"; "ParticipantAGE"; "LoanAmountAPPLIED";
    "LoanAmountAPPROVED"; "LoanPERIOD"; "InterestRATE"; "InsurancePERIOD";
    "InsuranceCOVERAGE" ].

Definition a2m_number_fields : list string :=
  [ "ParticipantID"; "ParticipantAGE"; "MarginalizedSTATUS"; "EntityPHONE";
    "QtySOLD"; "AmountSOLD" ].

(** A value is non-numeric when [Number] makes NaN of it: [undefined], a
    text that is not a numeric literal, a plain object, NaN itself. *)
Definition non_numeric (v : value) : bool := Num.is_nan (to_number v).



(** ** Columns and counts *)

(** [item[k]] for every item, in order. *)
Definition column (k : string) (data : list document) : list value :=
  (λ item, get item k) <$> data.

Definition survey_collections : list string :=
  [ "MarketSurveyAQUA"; "MarketSurveyCATTLE"; "MarketSurveyFH";
    "MarketSurveyMAIZE"; "MarketSurveyPOULTRY"; "MarketSurveyQSR" ].

(** The number of documents, as a number. *)
Definition count (docs : list document) : value :=
  VNum (Num.of_Z (Z.of_nat (length docs))).

(** ** Groups and sums of /api/leverages *)


(** The number [Number(item.Amount) || 0]. *)
Definition coerced_amount (item : document) : Num.number :=
  Num.or_zero (to_number (get item "Amount")).







(* ===================================================================== *)
(** * The remaining routes of server.js                                   *)
(* ===================================================================== *)

(** ** GET /api/collections *)

(** [listCollections] stands for the awaited
    [db.listCollections().toArray()], one information object per
    collection. *)
Definition collections (listCollections : promise (list document))
  : response :=
  try_catch
    (collections ← listCollections;
     mret (json (literal
       [("success", VBool true);
        ("collections", VArr ((λ c, get c "name") <$> collections))])))
    (status_json 500 (error_body "Error fetching collections")).

(** ** GET /api/dealers and GET /api/cooperatives *)

Definition dealers (conn : db) : response :=
  try_catch
    (data ← toArray conn "DealerPROFILE";
     mret (json (literal [("success", VBool true);
                          ("data", VArr (VObj <$> data))])))
    (status_json 500 (error_body "Error fetching dealers")).

Definition cooperatives (conn : db) : response :=
  try_catch
    (data ← toArray conn "CoOpPROFILE";
     mret (json (literal [("success", VBool true);
                          ("data", VArr (VObj <$> data))])))
    (status_json 500 (error_body "Error fetching data")).

(** ** Objects with their properties in order *)

(** [Object.keys] depends on the order in which an object got its
    properties, which a finite map does not keep: here an object is the
    list of its fields as stored, first to last. A name that occurs again
    is the same property, at the place of its first occurrence. *)
Definition ordered_object : Type := list (string * value).

(** The document an ordered object is, order forgotten. *)
Definition unordered (o : ordered_object) : document :=
  foldl (λ d kv, <[kv.1 := kv.2]> d) ∅ o.

(** The names of a list, each once, in the order of first occurrence. *)
Definition first_occurrences (ks : list string) : list string :=
  foldl (λ seen k, if decide (k ∈ seen) then seen else seen ++ [k]) [] ks.

(** An array index is the canonical decimal text of an integer from 0 to
    [2^32 - 2]: digits only, no leading zero. *)
Definition array_index (k : string) : option Z :=
  let cs := list_ascii_of_string k in
  match cs with
  | [] => None
  | c :: r =>
      if forallb decimal_digit cs
         && (negb (Ascii.eqb c "0") || bool_decide (r = []))
         && (decimal_value cs <? 2 ^ 32 - 1)%Z
      then Some (decimal_value cs)
      else None
  end.

(** The order of two array indices. *)
Definition index_le (a b : string) : Prop :=
  (default 0 (array_index a) ≤ default 0 (array_index b))%Z.

#[global] Instance index_le_dec (a b : string) : Decision (index_le a b) :=
  Z_le_dec _ _.

(** [Object.keys(o)]: the array indices in ascending order, then the
    other names in the order of creation. *)
Definition Object_keys (o : ordered_object) : list string :=
  let names := first_occurrences o.*1 in
  merge_sort index_le (filter (λ k, is_Some (array_index k)) names)
  ++ filter (λ k, ¬ is_Some (array_index k)) names.

(** ** GET /api/data-structure *)

(** The store with every document's fields in stored order. *)
Definition ordered_db : Type := string → promise (list ordered_object).

(** The store as the other routes read it. *)
Definition forget_order (conn : ordered_db) : db :=
  λ name, match conn name with
          | Resolved docs => Resolved (unordered <$> docs)
          | Rejected => Rejected
          end.

(** [collection(name).findOne()]: the first document, [None] standing for
    [null]. *)
Definition findFirst (conn : ordered_db) (name : string)
  : promise (option ordered_object) :=
  bind (conn name) (λ docs, Resolved (head docs)).

(** [Object.keys(doc || {})] as an array of strings. *)
Definition keys_or_none (doc : option ordered_object) : value :=
  VArr (VStr <$> Object_keys (default [] doc)).

Definition data_structure (conn : ordered_db) : response :=
  try_catch
    (participant ← findFirst conn "ParticipantPROFILE";
     dealer ← findFirst conn "DealerPROFILE";
     coop ← findFirst conn "CoOpPROFILE";
     mret (json (literal [("participant", keys_or_none participant);
                          ("dealer", keys_or_none dealer);
                          ("coop", keys_or_none coop)])))
    (status_json 500
       (literal [("error", VStr "Error fetching data structure")])).

(** ** The vocabulary of the further properties *)

(** The field [k] of the body of a response. *)
Definition body_field (r : response) (k : string) : option value :=
  match body r with
  | VObj o => o !! k
  | _ => None
  end.

(** A response either succeeds with status 200 and [success: true], or
    fails with the status [failure] and [success: false]. *)
Definition flags_success (failure : list Z) (r : response) : Prop :=
  (status r = 200%Z ∧ body_field r "success" = Some (VBool true)) ∨
  (status r ∈ failure ∧ body_field r "success" = Some (VBool false)).

(** The routes that read one fixed collection, each with its collection
    and the message of its error response. *)
Definition single_read_routes : list (string * (db → response) * string) :=
  [ ("ParticipantPROFILE", participants, "Error fetching data");
    ("Leverages", leverages, "Error fetching data");
    ("DealerPROFILE", dealers, "Error fetching dealers");
    ("CoOpPROFILE", cooperatives, "Error fetching data");
    ("Productivity", productivity, "Error fetching data");
    ("A2F", a2f, "Error fetching data");
    ("A2M", a2m, "Error fetching data") ].



(** Two documents hold the same in the fields [ks]. *)
Definition same_fields (ks : list string) (d d' : document) : Prop :=
  ∀ k, k ∈ ks → d !! k = d' !! k.

(** Two reads give as many documents, or fail both. *)
Definition same_size (p q : promise (list document)) : Prop :=
  match p, q with
  | Resolved l, Resolved l' => length l = length l'
  | Rejected, Rejected => True
  | _, _ => False
  end.

(** The names [ks] listed for a document: the array indices first, in
    ascending order, then the other names in stored order; and the stored
    names themselves when none is an array index or repeated. *)
Definition keys_in_order (first : option ordered_object) (ks : list string)
  : Prop :=
  let o := default [] first in
  (∃ indices others,
     ks = indices ++ others ∧
     StronglySorted index_le indices ∧
     Forall (λ k, is_Some (array_index k)) indices ∧
     Forall (λ k, array_index k = None) others ∧
     others `sublist_of` o.*1) ∧
  (NoDup o.*1 → Forall (λ k, array_index k = None) o.*1 → ks = o.*1).

(* ===================================================================== *)
(** * Sample collections                                                  *)
(* ===================================================================== *)

(** A store whose every query fails. *)
Definition failing_store : db := fun _ => Rejected.

(** ** UsersMIS *)

(** Alice, with a role and a name. *)
Definition alice : document :=
  {[ "username" := VStr "alice"; "password" := VStr "secret";
     "role" := VStr "admin"; "name" := VStr "Alice" ]}.

Definition alice_store : db :=
  fun name => if String.eqb name "UsersMIS" then Resolved [alice]
              else Resolved [].

(** A credential document whose role is the number 0 and whose name is the
    empty string. *)
Definition zero_role_user : document :=
  {[ "username" := VStr "alice"; "password" := VStr "secret";
     "role" := VNum Num.zero; "name" := VStr "" ]}.

Definition zero_role_store : db :=
  fun name => if String.eqb name "UsersMIS" then Resolved [zero_role_user]
              else Resolved [].

Definition credential_store : db :=
  fun name => if String.eqb name "UsersMIS" then Resolved [alice; zero_role_user]
              else Resolved [].

(** ** ParticipantPROFILE, A2F, A2M *)

(** A participant whose ID is the number 0. *)
Definition participant_zero : document :=
  {[ "ID" := VNum Num.zero; "ParticipantNAME" := VStr "Sita" ]}.


(** An A2F record with a numeric text, a text that is no number, missing
    fields and a field that is not designated; an A2M record likewise. *)
Definition a2f_record : document :=
  {[ "ParticipantID" := VStr "42"; "LoanAmountAPPLIED" := VStr "12.5";
     "LoanAmountAPPROVED" := VStr "pending"; "Bank" := VStr "ADBL" ]}.




(** ** Productivity and the market surveys *)

(** The two documents of the specification's example. *)
Definition maize : document :=
  {[ "Sector" := VStr "Maize"; "BaseLine" := VNum (Num.of_Z 10);
     "Early Productivity Assessment" := VNum (Num.of_Z 12);
     "% Growth" := VNum (Num.of_Z 20) ]}.

Definition poultry : document :=
  {[ "Sector" := VStr "Poultry"; "BaseLine" := VNum (Num.of_Z 5);
     "Early Productivity Assessment" := VNum (Num.of_Z 5);
     "% Growth" := VNum (Num.of_Z 0) ]}.

Definition productivity_store : db :=
  fun name => if String.eqb name "Productivity" then Resolved [maize; poultry]
              else Resolved [].

Definition survey_store : db :=
  fun name => if String.eqb name "MarketSurveyAQUA" then Resolved [maize; poultry]
              else if String.eqb name "MarketSurveyMAIZE" then Resolved [maize]
              else Resolved [].

(** All collections answer but the poultry survey. *)
Definition broken_survey_store : db :=
  fun name => if String.eqb name "MarketSurveyPOULTRY" then Rejected
              else survey_store name.

(** ** Leverages *)

(** A record of the entity "Unknown", a record without entity, and a
    record with a text amount. *)
Definition named_unknown : document :=
  {[ "Entity" := VStr "Unknown"; "Amount" := VNum (Num.of_Z 1) ]}.

Definition without_entity : document :=
  {[ "Amount" := VNum (Num.of_Z 5) ]}.

Definition bank_record : document :=
  {[ "Entity" := VStr "Bank"; "Amount" := VStr "2.5" ]}.

Definition leverage_store : db :=
  fun name => if String.eqb name "Leverages"
              then Resolved [named_unknown; without_entity; bank_record]
              else Resolved [].



(** ** The store in stored order *)

(** A participant and a cooperative with their fields in stored order;
    no dealer. *)
Definition ordered_participant : ordered_object :=
  [("_id", VStr "p1"); ("ID", VNum (Num.of_Z 17));
   ("ParticipantNAME", VStr "Sita"); ("2", VStr "second");
   ("10", VStr "tenth")].

Definition ordered_cooperative : ordered_object :=
  [("_id", VStr "c1"); ("CoOpNAME", VStr "Himal")].

Definition ordered_store : ordered_db :=
  λ name, if String.eqb name "ParticipantPROFILE"
          then Resolved [ordered_participant]
          else if String.eqb name "CoOpPROFILE"
          then Resolved [ordered_cooperative; []]
          else Resolved [].


(** ** Dealers, cooperatives and the listing *)

Definition dealer : document :=
  {[ "DealerNAME" := VStr "Agro"; "ID" := VNum (Num.of_Z 3) ]}.

Definition dealer_store : db :=
  λ name, if String.eqb name "DealerPROFILE" then Resolved [dealer]
          else if String.eqb name "CoOpPROFILE" then Resolved [unordered ordered_cooperative]
          else if String.eqb name "ParticipantPROFILE" then Resolved [participant_zero]
          else Resolved [].

(** Every list collection is empty. *)
Definition empty_store : db := λ _, Resolved [].

(** A listing of two collections and of an entry without name. *)
Definition listing : list document :=
  [ {[ "name" := VStr "A2F"; "type" := VStr "collection" ]};
    {[ "name" := VStr "UsersMIS"; "type" := VStr "collection" ]};
    {[ "type" := VStr "view" ]} ].

(** ** Other stores with the same sizes or the same charted fields *)

(** Survey collections of the sizes of [survey_store], with other
    documents. *)
Definition two_sizes_store : db :=
  λ name, if String.eqb name "MarketSurveyAQUA" then Resolved [alice; dealer]
          else if String.eqb name "MarketSurveyMAIZE" then Resolved [∅]
          else Resolved [].

(** The maize and bank records with one more field. *)
Definition maize_with_notes : document :=
  <["Notes" := VStr "confidential"]> maize.

Definition bank_with_notes : document :=
  <["Officer" := VStr "R. Thapa"]> bank_record.

Definition noted_store : db :=
  λ name, if String.eqb name "Productivity"
          then Resolved [maize_with_notes; poultry]
          else if String.eqb name "Leverages"
          then Resolved [named_unknown; without_entity; bank_with_notes]
          else Resolved [].

(* ===================================================================== *)
(** * Properties of the numbers                                           *)
(* ===================================================================== *)

Section binary_rounding.
Variables prec emax : Z.






End binary_rounding.

Module NumFacts.
Import Num.




Lemma or_zero_not_nan (x : number) : is_nan (or_zero x) = false.
Proof. by destruct x as [[]| | |]. Qed.



Lemma digits2_pos_size (p : positive) : digits2_pos p = Pos.size p.
Proof. induction p; simpl; congruence. Qed.

Lemma iter_xO_value (p q : positive) :
  Z.pos (Pos.iter xO p q) = (Z.pos p * 2 ^ Z.pos q)%Z.
Proof.
  induction q as [|q IH] using Pos.peano_ind.
  - simpl. lia.
  - rewrite Pos.iter_succ, Pos2Z.inj_succ, Z.pow_succ_r by lia.
    rewrite Pos2Z.inj_xO, IH. lia.
Qed.

Lemma iter_xO_digits (p q : positive) :
  digits2_pos (Pos.iter xO p q) = (digits2_pos p + q)%positive.
Proof.
  induction q as [|q IH] using Pos.peano_ind.
  - simpl. lia.
  - rewrite Pos.iter_succ. simpl. rewrite IH. lia.
Qed.

Lemma digits2_pos_bound (p : positive) :
  (Z.pos p < 2 ^ 53)%Z → (Z.pos (digits2_pos p) ≤ 53)%Z.
Proof.
  intros Hp. rewrite digits2_pos_size.
  pose proof (Pos.size_le p) as Hle.
  destruct (Z.le_gt_cases (Z.pos (Pos.size p)) 53) as [|Hgt]; [done|].
  exfalso.
  assert (2 ^ 54 ≤ 2 ^ Z.pos (Pos.size p))%Z as H54
    by (apply Z.pow_le_mono_r; lia).
  assert (Z.pos (2 ^ Pos.size p) = 2 ^ Z.pos (Pos.size p))%Z as Hpow
    by (rewrite Pos2Z.inj_pow; reflexivity).
  assert (Z.pos (2 ^ Pos.size p) ≤ Z.pos p~0)%Z as Hle' by exact Hle.
  rewrite Hpow in Hle'. rewrite Pos2Z.inj_xO in Hle'.
  change (2 ^ 54)%Z with (2 * 2 ^ 53)%Z in H54. lia.
Qed.

(** A natural number below [2^53] is a number, exactly: rounding has
    nothing to drop. *)
Lemma of_Z_exact (n : Z) :
  (0 ≤ n < 2 ^ 53)%Z → integer_value (of_Z n) = Some n.
Proof.
  intros [H0 Hn]. destruct n as [|p|p]; [reflexivity| |lia].
  pose proof (digits2_pos_bound p Hn) as Hd.
  unfold of_Z, binary_normalize, binary_round.
  rewrite Z.add_0_r.
  assert (fexp prec emax (Z.pos (digits2_pos p))
          = Z.pos (digits2_pos p) - 53)%Z as Hfexp
    by (unfold fexp, emin, prec, emax; lia).
  rewrite Hfexp. unfold shl_align. rewrite Z.sub_0_r.
  destruct (Z.pos (digits2_pos p) - 53)%Z as [|q|q] eqn:Hq; [|lia|].
  - (* 53 bits already *)
    unfold binary_round_aux, shr_fexp. cbn [Zdigits2 shr_record_of_loc].
    assert (fexp prec emax (Z.pos (digits2_pos p) + 0) - 0 = 0)%Z as ->
      by (unfold fexp, emin, prec, emax; lia).
    cbn [shr shr_m loc_of_shr_record round_nearest_even Zdigits2
         shr_record_of_loc].
    assert (fexp prec emax (Z.pos (digits2_pos p) + 0) - 0 = 0)%Z as ->
      by (unfold fexp, emin, prec, emax; lia).
    cbn [shr shr_m]. change (0 <=? emax - prec)%Z with true.
    unfold integer_value. cbn [Z.leb Z.compare cond_Zopp]. f_equal. lia.
  - (* fewer bits: the mantissa is shifted left, the exponent negative *)
    unfold binary_round_aux, shr_fexp. cbn [Zdigits2 shr_record_of_loc].
    rewrite iter_xO_digits.
    assert (fexp prec emax (Z.pos (digits2_pos p + q) + Z.neg q) - Z.neg q
            = 0)%Z as ->
      by (unfold fexp, emin, prec, emax; lia).
    cbn [shr shr_m loc_of_shr_record round_nearest_even Zdigits2
         shr_record_of_loc].
    rewrite iter_xO_digits.
    assert (fexp prec emax (Z.pos (digits2_pos p + q) + Z.neg q) - Z.neg q
            = 0)%Z as ->
      by (unfold fexp, emin, prec, emax; lia).
    cbn [shr shr_m].
    change (Z.neg q <=? emax - prec)%Z with true.
    unfold integer_value. change (0 <=? Z.neg q)%Z with false.
    rewrite iter_xO_value. cbn [Z.opp].
    rewrite Z.mod_mul, Z.div_mul by lia. reflexivity.
Qed.

(** ** Numeric texts *)

Local Open Scope Z_scope.

























(** The two conversions on a few texts and numbers. *)
Example string_to_number_examples :
  string_to_number "0.1" = S754_finite false 7205759403792794 (-56) ∧
  string_to_number " 42 " = of_Z 42 ∧
  string_to_number "1e3" = of_Z 1000 ∧
  string_to_number "0x1F" = of_Z 31 ∧
  string_to_number "-0" = S754_zero true ∧
  string_to_number "" = zero ∧
  string_to_number "-Infinity" = infinity true ∧
  string_to_number "5e-324" = S754_finite false 1 (-1074) ∧
  string_to_number "9007199254740993" = of_Z 9007199254740992 ∧
  string_to_number "abc" = nan ∧
  string_to_number "1,5" = nan ∧
  string_to_number "[object Object]" = nan.
Proof. repeat split; vm_compute; reflexivity. Qed.

Example number_to_string_examples :
  number_to_string (of_Z 123) = "123"%string ∧
  number_to_string (of_Z (-17)) = "-17"%string ∧
  number_to_string (string_to_number "0.1") = "0.1"%string ∧
  number_to_string (add (string_to_number "0.1") (string_to_number "0.2"))
    = "0.30000000000000004"%string ∧
  number_to_string (string_to_number "12.50") = "12.5"%string ∧
  number_to_string (of_Z (10 ^ 21)) = "1e+21"%string ∧
  number_to_string (of_Z (10 ^ 20)) = "100000000000000000000"%string ∧
  number_to_string (string_to_number "0.0000001") = "1e-7"%string ∧
  number_to_string (string_to_number "0.000001") = "0.000001"%string ∧
  number_to_string (S754_zero true) = "0"%string ∧
  number_to_string nan = "NaN"%string.
Proof. repeat split; vm_compute; reflexivity. Qed.

End NumFacts.

(* ===================================================================== *)
(** * Properties of the handlers                                          *)
(* ===================================================================== *)

(** Unfolds an awaited call whose result is known. *)
Ltac await H :=
  unfold findOne, toArray, countDocuments;
  rewrite ?H;
  cbn [try_catch mbind promise_bind bind mret promise_ret].

(** Reading a property that [Object.prototype] does not define gives the
    own property, or [undefined] when there is none. *)
Lemma get_own_or_undefined (o : object) (k : string) :
  on_object_prototype k = false → get o k = default VUndefined (o !! k).
Proof.
  unfold on_object_prototype, get, inherited. cbn [existsb].
  intros [H1 H2]%orb_false_iff. cbn [existsb] in H2.
  destruct (o !! k); [done|]. by rewrite H1, H2.
Qed.

Lemma field_equals_spec (k s : string) (d : document) :
  field_equals k s d = true ↔ d !! k = Some (VStr s).
Proof.
  unfold field_equals. split.
  - destruct (d !! k) as [[]|]; try discriminate.
    by intros ->%String.eqb_eq.
  - intros ->. apply String.eqb_refl.
Qed.

Lemma credentials_spec (username password : string) (d : document) :
  credentials username password d = true ↔
  d !! "username" = Some (VStr username) ∧
  d !! "password" = Some (VStr password).
Proof.
  unfold credentials. rewrite andb_true_iff, !field_equals_spec. done.
Qed.

(** ** POST /api/login *)

Lemma or_get_truthy_or (user : document) (k : string) (default : value) :
  inherited k = VUndefined →
  or (get user k) default = truthy_or user k default.
Proof.
  intros Hk. unfold or, get, truthy_or.
  destruct (user !! k); [done | by rewrite Hk].
Qed.

(** C1, as stated, fails: the stored document of alice has the role [0]
    and the name [""], both present, and the response carries the role
    ["user"] and the name ["alice"] instead of the stored fields. *)
Lemma login_stored_fields_counterexample :
  List.find (credentials "alice" "secret") [zero_role_user]
    = Some zero_role_user ∧
  zero_role_user !! "role" = Some (VNum Num.zero) ∧
  zero_role_user !! "name" = Some (VStr "") ∧
  login zero_role_store "alice" "secret"
    = login_success "alice" (VStr "user") (VStr "alice") ∧
  login zero_role_store "alice" "secret"
    ≠ login_success "alice"
        (stored_or zero_role_user "role" (VStr "user"))
        (stored_or zero_role_user "name" (VStr "alice")).
Proof.
  split; [reflexivity|]. split; [reflexivity|]. split; [reflexivity|].
  split; [reflexivity|].
  intros H. vm_compute in H. discriminate H.
Qed.

(** C1, amended: when a document matches the username and the password,
    the login answers with status 200 and
    [{success:true, user:{username, role, name}}], where [username] is the
    supplied (and stored) username, [role] is the stored role when it is
    truthy and ["user"] when it is absent or falsy, and [name] is the
    stored name when it is truthy and the username when it is absent or
    falsy. The document used is the first match. *)
Theorem login_matching_credentials
    (conn : db) (username password : string) (docs : list document) :
  conn "UsersMIS" = Resolved docs →
  (∃ d, d ∈ docs ∧ credentials username password d = true) →
  ∃ user,
    List.find (credentials username password) docs = Some user ∧
    user !! "username" = Some (VStr username) ∧
    user !! "password" = Some (VStr password) ∧
    login conn username password
      = login_success username
          (truthy_or user "role" (VStr "user"))
          (truthy_or user "name" (VStr username)).
Proof.
  intros Hconn (d & Hd & Hmatch).
  destruct (List.find (credentials username password) docs) as [user|] eqn:Hfind.
  - exists user.
    pose proof (find_some _ _ Hfind) as [_ Huser].
    apply credentials_spec in Huser as [Hname Hpass].
    repeat split; try done.
    unfold login. await Hconn. rewrite Hfind.
    rewrite !or_get_truthy_or by reflexivity.
    unfold get. rewrite Hname. reflexivity.
  - exfalso. apply list_elem_of_In in Hd.
    by rewrite (find_none _ _ Hfind d Hd) in Hmatch.
Qed.

Lemma login_matching_credentials_witness :
  ∃ user,
    List.find (credentials "alice" "secret") [alice; zero_role_user]
      = Some user ∧
    user !! "username" = Some (VStr "alice") ∧
    user !! "password" = Some (VStr "secret") ∧
    login credential_store "alice" "secret"
      = login_success "alice"
          (truthy_or user "role" (VStr "user"))
          (truthy_or user "name" (VStr "alice")).
Proof.
  apply (login_matching_credentials credential_store "alice" "secret"
           [alice; zero_role_user]).
  - reflexivity.
  - exists alice. split; [apply list_elem_of_here | reflexivity].
Defined.

(** Alice logs in: the stored role and name are returned. *)
Example login_alice :
  login credential_store "alice" "secret"
  = login_success "alice" (VStr "admin") (VStr "Alice").
Proof. reflexivity. Qed.

(** C2: when no document of UsersMIS has exactly the supplied username and
    password, the login answers with status 401 and
    [{success:false, message:"Invalid credentials"}]; when the query fails,
    it answers with status 500 and
    [{success:false, message:"Server error"}]. *)
Theorem login_rejected_credentials
    (conn : db) (username password : string) :
  (∀ docs,
     conn "UsersMIS" = Resolved docs →
     Forall (λ d, ¬ (d !! "username" = Some (VStr username) ∧
                     d !! "password" = Some (VStr password))) docs →
     login conn username password
       = {| status := 401;
            body := literal [("success", VBool false);
                             ("message", VStr "Invalid credentials")] |}) ∧
  (conn "UsersMIS" = Rejected →
     login conn username password
       = {| status := 500;
            body := literal [("success", VBool false);
                             ("message", VStr "Server error")] |}).
Proof.
  split.
  - intros docs Hconn Hnone. unfold login. await Hconn.
    destruct (List.find _ docs) as [user|] eqn:Hfind; [|reflexivity].
    apply find_some in Hfind as [Hin Huser].
    apply credentials_spec in Huser.
    rewrite Forall_forall in Hnone.
    destruct (Hnone user); [by apply list_elem_of_In | done].
  - intros Hconn. unfold login. by await Hconn.
Qed.

(** The example of the specification: alice exists with another password
    (first part); and a failing store (second part). *)
Lemma login_rejected_credentials_witness :
  login alice_store "alice" "wrong"
    = {| status := 401;
         body := literal [("success", VBool false);
                          ("message", VStr "Invalid credentials")] |} ∧
  login failing_store "alice" "secret"
    = {| status := 500;
         body := literal [("success", VBool false);
                          ("message", VStr "Server error")] |}.
Proof.
  split.
  - apply (proj1 (login_rejected_credentials alice_store "alice" "wrong")
             [alice]); [reflexivity|].
    constructor; [|constructor].
    intros [_ H]. vm_compute in H. discriminate H.
  - apply (proj2 (login_rejected_credentials failing_store "alice" "secret")).
    reflexivity.
Defined.

(** ** GET /api/collections/:collectionName *)

(** C7: for every collection name, when the read of that collection gives
    its documents, the route answers [{success:true, data}] with [data]
    the array of these documents, as long as the collection; no name is
    checked against [VALID_COLLECTIONS], so a name outside that list is
    served in the same way. *)
Theorem collection_by_name_any_collection
    (conn : db) (collectionName : string) (docs : list document) :
  conn collectionName = Resolved docs →
  ∃ data,
    collection_by_name conn collectionName = success_data (VArr data) ∧
    data = VObj <$> docs ∧
    length data = length docs ∧
    (collectionName ∉ VALID_COLLECTIONS →
       collection_by_name conn collectionName
         = success_data (VArr (VObj <$> docs))).
Proof.
  intros Hconn. exists (VObj <$> docs).
  assert (collection_by_name conn collectionName
            = success_data (VArr (VObj <$> docs))) as H
    by (unfold collection_by_name; by await Hconn).
  repeat split; try done. apply length_fmap.
Qed.

Lemma collection_by_name_any_collection_witness :
  ("UsersMIS" ∉ VALID_COLLECTIONS) ∧
  (∃ data,
    collection_by_name credential_store "UsersMIS" = success_data (VArr data) ∧
    data = VObj <$> [alice; zero_role_user] ∧
    length data = length [alice; zero_role_user] ∧
    ("UsersMIS" ∉ VALID_COLLECTIONS →
       collection_by_name credential_store "UsersMIS"
         = success_data (VArr (VObj <$> [alice; zero_role_user])))).
Proof.
  split.
  - unfold VALID_COLLECTIONS. rewrite !not_elem_of_cons.
    repeat split; try discriminate. apply not_elem_of_nil.
  - apply (collection_by_name_any_collection credential_store "UsersMIS").
    reflexivity.
Defined.

(** ** The cleaned documents of /api/participants, /api/a2f, /api/a2m *)

(** Splits [k ∈ [k1; ...; kn]] into its cases. *)
Ltac field_cases H :=
  repeat (apply elem_of_cons in H as [-> | H]);
  [.. | by apply elem_of_nil in H].

(** Turns [k ∉ [k1; ...; kn]] into [k ≠ k1], ..., [k ≠ kn]. *)
Ltac field_apart H :=
  repeat (apply not_elem_of_cons in H as [? H]).




Lemma clean_participant_field (p : document) (k : string) :
  k ∈ participant_string_fields →
  clean_participant p !! k = Some (string_or_empty p k).
Proof.
  intros H. unfold participant_string_fields in H.
  field_cases H; unfold clean_participant; by simplify_map_eq.
Qed.

Lemma clean_participant_other (p : document) (k : string) :
  k ∉ participant_string_fields → clean_participant p !! k = p !! k.
Proof.
  intros H. unfold participant_string_fields in H. field_apart H.
  unfold clean_participant. by rewrite !lookup_insert_ne.
Qed.

Lemma clean_a2f_field (item : document) (k : string) :
  k ∈ a2f_number_fields → clean_a2f item !! k = Some (number_or_zero item k).
Proof.
  intros H. unfold a2f_number_fields in H.
  field_cases H; unfold clean_a2f; by simplify_map_eq.
Qed.

Lemma clean_a2f_other (item : document) (k : string) :
  k ∉ a2f_number_fields → clean_a2f item !! k = item !! k.
Proof.
  intros H. unfold a2f_number_fields in H. field_apart H.
  unfold clean_a2f. by rewrite !lookup_insert_ne.
Qed.

Lemma clean_a2m_field (item : document) (k : string) :
  k ∈ a2m_number_fields → clean_a2m item !! k = Some (number_or_zero item k).
Proof.
  intros H. unfold a2m_number_fields in H.
  field_cases H; unfold clean_a2m; by simplify_map_eq.
Qed.

Lemma clean_a2m_other (item : document) (k : string) :
  k ∉ a2m_number_fields → clean_a2m item !! k = item !! k.
Proof.
  intros H. unfold a2m_number_fields in H. field_apart H.
  unfold clean_a2m. by rewrite !lookup_insert_ne.
Qed.


(** None of the designated fields is a property of [Object.prototype]:
    reading an absent one gives [undefined]. *)
Lemma designated_not_inherited (k : string) :
  k ∈ participant_string_fields ++ a2f_number_fields ++ a2m_number_fields →
  inherited k = VUndefined.
Proof. intros H. cbn in H. field_cases H; reflexivity. Qed.

(** ** GET /api/participants *)

Lemma string_or_empty_spec (p : document) (k : string) :
  inherited k = VUndefined →
  string_or_empty p k = VStr (string_of_truthy p k).
Proof.
  intros Hk. unfold string_or_empty, or, get, string_of_truthy.
  destruct (p !! k) as [v|]; [by destruct (truthy v) | by rewrite Hk].
Qed.




(** ** GET /api/a2f and GET /api/a2m *)

Lemma non_numeric_examples :
  non_numeric VUndefined = true ∧
  non_numeric (VStr "abc") = true ∧
  non_numeric (VStr "12 kg") = true ∧
  non_numeric (VObj ∅) = true ∧
  non_numeric (VNum Num.nan) = true ∧
  non_numeric (VStr "12.5") = false ∧
  non_numeric (VNum (Num.of_Z 7)) = false.
Proof. repeat split; reflexivity. Qed.

Lemma number_or_zero_spec (item : document) (k : string) :
  number_or_zero item k = VNum (Num.or_zero (to_number (get item k))).
Proof.
  unfold number_or_zero, or, Number, Num.or_zero. simpl.
  by destruct (Num.is_zero _ || Num.is_nan _).
Qed.




(** The record of [access_store], computed: the numeric texts become
    numbers, the other designated fields 0, and [Bank] stays. *)
Example a2f_record_cleaned :
  clean_a2f a2f_record
  = {[ "ParticipantID" := VNum (Num.of_Z 42);
       "ParticipantAGE" := VNum Num.zero;
       "LoanAmountAPPLIED" := VNum (Num.of_decimal false 125 (-1));
       "LoanAmountAPPROVED" := VNum Num.zero;
       "LoanPERIOD" := VNum Num.zero;
       "InterestRATE" := VNum Num.zero;
       "InsurancePERIOD" := VNum Num.zero;
       "InsuranceCOVERAGE" := VNum Num.zero;
       "Bank" := VStr "ADBL" ]}.
Proof. reflexivity. Qed.

(** ** The fields the cleaning leaves alone *)




(** ** GET /api/productivity *)

Lemma productivity_fold (acc : productivity_acc) (data : list document) :
  foldl productivity_step acc data
  = {| sectors := sectors acc ++ column "Sector" data;
       baseline := baseline acc ++ column "BaseLine" data;
       earlyassessment :=
         earlyassessment acc ++ column "Early Productivity Assessment" data;
       growth := growth acc ++ column "% Growth" data |}.
Proof.
  revert acc. induction data as [|item data IH]; intros acc.
  - destruct acc. cbn. by rewrite !app_nil_r.
  - cbn [foldl]. rewrite IH. unfold column. cbn.
    by rewrite <- !app_assoc.
Qed.

Lemma productivityData_columns (data : list document) :
  productivityData data
  = {| sectors := column "Sector" data;
       baseline := column "BaseLine" data;
       earlyassessment := column "Early Productivity Assessment" data;
       growth := column "% Growth" data |}.
Proof. unfold productivityData. by rewrite productivity_fold. Qed.

Lemma column_lookup (k : string) (data : list document) (i : nat) :
  column k data !! i = (λ item, get item k) <$> data !! i.
Proof. apply list_lookup_fmap. Qed.

(** C5: /api/productivity answers with four arrays, each as long as the
    collection, whose i-th elements are the [Sector], [BaseLine],
    ["Early Productivity Assessment"] and ["% Growth"] fields of the i-th
    document; on the two documents of the specification's example the
    arrays are ["Maize","Poultry"], [10,5], [12,5] and [20,0]. *)
Theorem productivity_parallel_arrays (conn : db) (data : list document) :
  conn "Productivity" = Resolved data →
  ∃ acc,
    productivity conn = success_data (productivity_body acc) ∧
    length (sectors acc) = length data ∧
    length (baseline acc) = length data ∧
    length (earlyassessment acc) = length data ∧
    length (growth acc) = length data ∧
    (∀ i item, data !! i = Some item →
       sectors acc !! i = Some (get item "Sector") ∧
       baseline acc !! i = Some (get item "BaseLine") ∧
       earlyassessment acc !! i
         = Some (get item "Early Productivity Assessment") ∧
       growth acc !! i = Some (get item "% Growth")) ∧
    (data = [maize; poultry] →
       acc = {| sectors := [VStr "Maize"; VStr "Poultry"];
                baseline := [VNum (Num.of_Z 10); VNum (Num.of_Z 5)];
                earlyassessment := [VNum (Num.of_Z 12); VNum (Num.of_Z 5)];
                growth := [VNum (Num.of_Z 20); VNum (Num.of_Z 0)] |}).
Proof.
  intros Hconn. exists (productivityData data).
  split; [unfold productivity; by await Hconn|].
  rewrite productivityData_columns. cbn [sectors baseline earlyassessment growth].
  unfold column. rewrite !length_fmap.
  repeat split; try done.
  1-4: rewrite list_lookup_fmap; by rewrite H.
  by intros ->.
Qed.

Lemma productivity_parallel_arrays_witness :
  ∃ acc,
    productivity productivity_store = success_data (productivity_body acc) ∧
    length (sectors acc) = 2 ∧
    length (baseline acc) = 2 ∧
    length (earlyassessment acc) = 2 ∧
    length (growth acc) = 2 ∧
    (∀ i item, [maize; poultry] !! i = Some item →
       sectors acc !! i = Some (get item "Sector") ∧
       baseline acc !! i = Some (get item "BaseLine") ∧
       earlyassessment acc !! i
         = Some (get item "Early Productivity Assessment") ∧
       growth acc !! i = Some (get item "% Growth")) ∧
    ([maize; poultry] = [maize; poultry] →
       acc = {| sectors := [VStr "Maize"; VStr "Poultry"];
                baseline := [VNum (Num.of_Z 10); VNum (Num.of_Z 5)];
                earlyassessment := [VNum (Num.of_Z 12); VNum (Num.of_Z 5)];
                growth := [VNum (Num.of_Z 20); VNum (Num.of_Z 0)] |}).
Proof.
  apply (productivity_parallel_arrays productivity_store [maize; poultry]).
  reflexivity.
Defined.

(** The response to the example, in full. *)
Example productivity_example :
  productivity productivity_store
  = json (literal
      [("success", VBool true);
       ("data", literal
          [("sectors", VArr [VStr "Maize"; VStr "Poultry"]);
           ("baseline", VArr [VNum (Num.of_Z 10); VNum (Num.of_Z 5)]);
           ("earlyassessment", VArr [VNum (Num.of_Z 12); VNum (Num.of_Z 5)]);
           ("growth", VArr [VNum (Num.of_Z 20); VNum (Num.of_Z 0)])])]).
Proof. reflexivity. Qed.

(** ** GET /api/market-surveys *)

Lemma all_rejected {A} (ps : list (promise A)) :
  Rejected ∈ ps → all ps = Rejected.
Proof.
  induction ps as [|p ps IH]; intros Hin.
  - by apply elem_of_nil in Hin.
  - apply elem_of_cons in Hin as [<- | Hin]; [done|].
    cbn. destruct p; [|done]. cbn. by rewrite IH.
Qed.

Lemma countDocuments_rejected (conn : db) (name : string) :
  conn name = Rejected → countDocuments conn name = Rejected.
Proof. intros H. unfold countDocuments. by rewrite H. Qed.

(** C6: when the six survey collections can be counted, /api/market-surveys
    answers with the six counts, each the number of documents of its
    collection (that integer exactly, for fewer than [2^53] documents),
    0 for an empty one; when the count of any one of the six fails,
    whatever the five others give, the response is the single status 500
    error and carries no count. *)
Theorem market_surveys_counts_or_error (conn : db) :
  (∀ aqua cattle fh maize poultry qsr : list document,
     conn "MarketSurveyAQUA" = Resolved aqua →
     conn "MarketSurveyCATTLE" = Resolved cattle →
     conn "MarketSurveyFH" = Resolved fh →
     conn "MarketSurveyMAIZE" = Resolved maize →
     conn "MarketSurveyPOULTRY" = Resolved poultry →
     conn "MarketSurveyQSR" = Resolved qsr →
     market_surveys conn
       = success_data (literal
           [("aqua", count aqua); ("cattle", count cattle);
            ("fh", count fh); ("maize", count maize);
            ("poultry", count poultry); ("qsr", count qsr)])) ∧
  count [] = VNum Num.zero ∧
  (∀ docs : list document,
     (Z.of_nat (length docs) < 2 ^ 53)%Z →
     ∃ x, count docs = VNum x ∧
          Num.integer_value x = Some (Z.of_nat (length docs))) ∧
  (∀ name, name ∈ survey_collections → conn name = Rejected →
     market_surveys conn
       = {| status := 500;
            body := literal [("success", VBool false);
                             ("message", VStr "Error fetching data")] |}).
Proof.
  split; [|split; [reflexivity|split]].
  - intros aqua cattle fh maize poultry qsr Ha Hc Hf Hm Hp Hq.
    unfold market_surveys, countDocuments.
    by rewrite Ha, Hc, Hf, Hm, Hp, Hq.
  - intros docs Hlen. eexists. split; [reflexivity|].
    apply NumFacts.of_Z_exact. lia.
  - intros name Hin Hrej. unfold market_surveys.
    rewrite all_rejected; [done|].
    apply countDocuments_rejected in Hrej. rewrite <- Hrej.
    unfold survey_collections in Hin. field_cases Hin;
      rewrite !elem_of_cons; auto 10.
Qed.

Lemma market_surveys_counts_or_error_witness :
  market_surveys survey_store
    = success_data (literal
        [("aqua", VNum (Num.of_Z 2)); ("cattle", VNum Num.zero);
         ("fh", VNum Num.zero); ("maize", VNum (Num.of_Z 1));
         ("poultry", VNum Num.zero); ("qsr", VNum Num.zero)]) ∧
  market_surveys broken_survey_store
    = {| status := 500;
         body := literal [("success", VBool false);
                          ("message", VStr "Error fetching data")] |}.
Proof.
  split.
  - apply (proj1 (market_surveys_counts_or_error survey_store)
             [maize; poultry] [] [] [maize] [] []); reflexivity.
  - apply (proj2 (proj2 (proj2
             (market_surveys_counts_or_error broken_survey_store)))
             "MarketSurveyPOULTRY"); [|reflexivity].
    unfold survey_collections. rewrite !elem_of_cons. auto 10.
Defined.

(** ** GET /api/leverages *)










Lemma coerced_amount_not_nan (item : document) :
  Num.is_nan (coerced_amount item) = false.
Proof. apply NumFacts.or_zero_not_nan. Qed.













(* ===================================================================== *)
(** * Further properties of the handlers                                  *)
(* ===================================================================== *)

(** ** Failures *)

(** X1: when the read of its collection fails, each route that reads one
    collection answers with status 500 and
    [{success:false, message}], the message being "Error fetching dealers"
    for /api/dealers and "Error fetching data" for the others; so does the
    route by collection name, for any name; /api/collections answers with
    the message "Error fetching collections". *)
Theorem read_failure_responses (conn : db) :
  (∀ name route message,
     (name, route, message) ∈ single_read_routes →
     conn name = Rejected →
     route conn = {| status := 500;
                     body := literal [("success", VBool false);
                                      ("message", VStr message)] |}) ∧
  (∀ name,
     conn name = Rejected →
     collection_by_name conn name
     = {| status := 500;
          body := literal [("success", VBool false);
                           ("message", VStr "Error fetching data")] |}) ∧
  collections Rejected
  = {| status := 500;
       body := literal [("success", VBool false);
                        ("message", VStr "Error fetching collections")] |}.
Proof.
  split; [|split; [|reflexivity]].
  - intros name route message Hin Hrej.
    unfold single_read_routes in Hin.
    repeat (apply elem_of_cons in Hin as [[= -> -> ->] | Hin]);
      [.. | by apply elem_of_nil in Hin].
    + unfold participants. by await Hrej.
    + unfold leverages. by await Hrej.
    + unfold dealers. by await Hrej.
    + unfold cooperatives. by await Hrej.
    + unfold productivity. by await Hrej.
    + unfold a2f. by await Hrej.
    + unfold a2m. by await Hrej.
  - intros name Hrej. unfold collection_by_name. by await Hrej.
Qed.

Lemma read_failure_responses_witness :
  dealers failing_store
  = {| status := 500;
       body := literal [("success", VBool false);
                        ("message", VStr "Error fetching dealers")] |} ∧
  collection_by_name failing_store "Anything"
  = {| status := 500;
       body := literal [("success", VBool false);
                        ("message", VStr "Error fetching data")] |}.
Proof.
  split.
  - apply (proj1 (read_failure_responses failing_store) "DealerPROFILE");
      [|reflexivity].
    unfold single_read_routes. rewrite !elem_of_cons. auto.
  - apply (proj1 (proj2 (read_failure_responses failing_store))). reflexivity.
Defined.

(** ** Status and success flag *)

(** X2: whatever the store holds or fails to give, every response with a
    [success] field has status 200 exactly with [success: true]; a failure
    has status 500, and 401 or 500 for the login, with
    [success: false]. *)
Theorem responses_flag_success
    (conn : db) (listCollections : promise (list document))
    (username password collectionName : string) :
  flags_success [401; 500]%Z (login conn username password) ∧
  Forall (flags_success [500]%Z)
    [ collection_by_name conn collectionName; collections listCollections;
      participants conn; leverages conn; market_surveys conn;
      dealers conn; cooperatives conn; productivity conn;
      a2f conn; a2m conn ].
Proof.
  assert (∀ r, r = 500%Z → r ∈ [500%Z]) as H500
    by (intros r ->; apply list_elem_of_here).
  split.
  - unfold login, findOne. destruct (conn "UsersMIS") as [docs|].
    + cbn [try_catch mbind promise_bind bind mret promise_ret].
      destruct (List.find _ docs).
      * by left.
      * right. split; [|reflexivity]. cbn. rewrite !elem_of_cons. auto.
    + right. split; [|reflexivity]. cbn. rewrite !elem_of_cons. auto.
  - repeat apply Forall_cons_2; [.. | apply Forall_nil_2].
    + unfold collection_by_name, toArray.
      destruct (conn collectionName); [by left | by right; auto].
    + unfold collections.
      destruct listCollections; [by left | by right; auto].
    + unfold participants, toArray.
      destruct (conn _); [by left | by right; auto].
    + unfold leverages, toArray.
      destruct (conn _); [by left | by right; auto].
    + unfold market_surveys.
      destruct (all _); [by left | by right; auto].
    + unfold dealers, toArray.
      destruct (conn _); [by left | by right; auto].
    + unfold cooperatives, toArray.
      destruct (conn _); [by left | by right; auto].
    + unfold productivity, toArray.
      destruct (conn _); [by left | by right; auto].
    + unfold a2f, toArray.
      destruct (conn _); [by left | by right; auto].
    + unfold a2m, toArray.
      destruct (conn _); [by left | by right; auto].
Qed.

(** ** Cleaning twice, and cleaning what is clean *)

Lemma String_or_empty_string (s : string) :
  String (or (VStr s) (VStr "")) = VStr s.
Proof.
  unfold String, or, truthy.
  destruct (String.eqb_spec s "") as [->|]; reflexivity.
Qed.

Lemma or_zero_idempotent (x : Num.number) :
  Num.or_zero (Num.or_zero x) = Num.or_zero x.
Proof. by destruct x as [[]| | |]. Qed.


Lemma string_or_empty_cleaned (p : document) (k : string) :
  k ∈ participant_string_fields →
  string_or_empty (clean_participant p) k = string_or_empty p k.
Proof.
  intros Hk. unfold string_or_empty at 1, get.
  rewrite clean_participant_field by done.
  rewrite string_or_empty_spec
    by (apply designated_not_inherited, elem_of_app; by left).
  apply String_or_empty_string.
Qed.

Lemma number_or_zero_number (item : document) (k : string) (x : Num.number) :
  item !! k = Some (VNum x) → number_or_zero item k = VNum (Num.or_zero x).
Proof. intros H. rewrite number_or_zero_spec. unfold get. by rewrite H. Qed.

Lemma number_or_zero_clean_a2f (item : document) (k : string) :
  k ∈ a2f_number_fields →
  number_or_zero (clean_a2f item) k = number_or_zero item k.
Proof.
  intros Hk.
  rewrite (number_or_zero_number (clean_a2f item) k
             (Num.or_zero (to_number (get item k))))
    by (by rewrite clean_a2f_field, number_or_zero_spec).
  by rewrite or_zero_idempotent, number_or_zero_spec.
Qed.

Lemma number_or_zero_clean_a2m (item : document) (k : string) :
  k ∈ a2m_number_fields →
  number_or_zero (clean_a2m item) k = number_or_zero item k.
Proof.
  intros Hk.
  rewrite (number_or_zero_number (clean_a2m item) k
             (Num.or_zero (to_number (get item k))))
    by (by rewrite clean_a2m_field, number_or_zero_spec).
  by rewrite or_zero_idempotent, number_or_zero_spec.
Qed.

Lemma clean_participant_idempotent (p : document) :
  clean_participant (clean_participant p) = clean_participant p.
Proof.
  apply map_eq; intros k.
  destruct (decide (k ∈ participant_string_fields)) as [Hk|Hk].
  - by rewrite !clean_participant_field, string_or_empty_cleaned.
  - by rewrite !clean_participant_other.
Qed.

Lemma clean_a2f_idempotent (item : document) :
  clean_a2f (clean_a2f item) = clean_a2f item.
Proof.
  apply map_eq; intros k.
  destruct (decide (k ∈ a2f_number_fields)) as [Hk|Hk].
  - by rewrite !clean_a2f_field, number_or_zero_clean_a2f.
  - by rewrite !clean_a2f_other.
Qed.

Lemma clean_a2m_idempotent (item : document) :
  clean_a2m (clean_a2m item) = clean_a2m item.
Proof.
  apply map_eq; intros k.
  destruct (decide (k ∈ a2m_number_fields)) as [Hk|Hk].
  - by rewrite !clean_a2m_field, number_or_zero_clean_a2m.
  - by rewrite !clean_a2m_other.
Qed.

(** X3: cleaning a cleaned document changes nothing, for each of the
    three cleanings: the strings made by [String(x || '')] and the numbers
    made by [Number(x) || 0] are left as they are by the same coercion,
    and the other fields are not touched either time. *)
Theorem cleaning_idempotent (p : document) :
  clean_participant (clean_participant p) = clean_participant p ∧
  clean_a2f (clean_a2f p) = clean_a2f p ∧
  clean_a2m (clean_a2m p) = clean_a2m p.
Proof.
  split; [apply clean_participant_idempotent|].
  split; [apply clean_a2f_idempotent | apply clean_a2m_idempotent].
Qed.











(** ** GET /api/leverages: which entities are listed *)






(** ** POST /api/login: what a client can rely on *)

Lemma or_truthy_default (a b : value) : truthy b = true → truthy (or a b) = true.
Proof. intros Hb. unfold or. by destruct (truthy a) eqn:Ha. Qed.

(** X8: a login that answers with status 200 answers
    [{success:true, user:{username, role, name}}] with the supplied
    username, a role that is truthy (never [null], [0] or the empty
    string) and, unless the username is the empty string, a name that is
    truthy. *)
Theorem login_success_truthy (conn : db) (username password : string) :
  status (login conn username password) = 200%Z →
  ∃ role name,
    login conn username password = login_success username role name ∧
    truthy role = true ∧
    (username ≠ "" → truthy name = true).
Proof.
  unfold login, findOne. destruct (conn "UsersMIS") as [docs|]; [|done].
  cbn [try_catch mbind promise_bind bind mret promise_ret].
  destruct (List.find _ docs) as [user|] eqn:Hfind; [|done]. intros _.
  apply find_some in Hfind as [_ [Hname _]%credentials_spec].
  exists (or (get user "role") (VStr "user")),
         (or (get user "name") (get user "username")).
  assert (get user "username" = VStr username) as Huser
    by (unfold get; by rewrite Hname).
  split; [by rewrite Huser at 1|].
  split; [by apply or_truthy_default|].
  intros Hne. apply or_truthy_default. rewrite Huser. cbn.
  by destruct (String.eqb_spec username "").
Qed.

Lemma login_success_truthy_witness :
  ∃ role name,
    login zero_role_store "alice" "secret" = login_success "alice" role name ∧
    truthy role = true ∧
    ("alice" ≠ "" → truthy name = true).
Proof.
  apply (login_success_truthy zero_role_store "alice" "secret"). reflexivity.
Defined.

(** ** Empty and missing collections *)

(** X9: a collection without documents is no error: the list routes
    answer with status 200 and an empty array, /api/productivity with four
    empty arrays, /api/leverages with an empty [byEntity] and the total
    0. *)
Theorem empty_collection_responses (conn : db) :
  (∀ name, conn name = Resolved [] →
     collection_by_name conn name = success_data (VArr [])) ∧
  (conn "ParticipantPROFILE" = Resolved [] →
     participants conn = success_data (VArr [])) ∧
  (conn "DealerPROFILE" = Resolved [] →
     dealers conn = success_data (VArr [])) ∧
  (conn "CoOpPROFILE" = Resolved [] →
     cooperatives conn = success_data (VArr [])) ∧
  (conn "A2F" = Resolved [] → a2f conn = success_data (VArr [])) ∧
  (conn "A2M" = Resolved [] → a2m conn = success_data (VArr [])) ∧
  (conn "Productivity" = Resolved [] →
     productivity conn
     = success_data (literal [("sectors", VArr []); ("baseline", VArr []);
                              ("earlyassessment", VArr []);
                              ("growth", VArr [])])) ∧
  (conn "Leverages" = Resolved [] →
     leverages conn = success_data (leverages_body ∅ Num.zero)).
Proof.
  repeat split.
  - intros name H. unfold collection_by_name. by await H.
  - intros H. unfold participants. by await H.
  - intros H. unfold dealers. by await H.
  - intros H. unfold cooperatives. by await H.
  - intros H. unfold a2f. by await H.
  - intros H. unfold a2m. by await H.
  - intros H. unfold productivity. by await H.
  - intros H. unfold leverages. by await H.
Qed.

Lemma empty_collection_responses_witness :
  collection_by_name empty_store "NoSuchCollection" = success_data (VArr []) ∧
  leverages empty_store = success_data (leverages_body ∅ Num.zero).
Proof.
  split.
  - apply (proj1 (empty_collection_responses empty_store)). reflexivity.
  - apply (empty_collection_responses empty_store). reflexivity.
Defined.

(** ** GET /api/collections *)

(** X10: /api/collections answers with the [name] of every entry of the
    listing, in the order of the listing and one per entry; an entry
    without [name] gives [undefined] at its place. *)
Theorem collections_names (infos : list document) :
  ∃ names,
    collections (Resolved infos)
    = json (literal [("success", VBool true); ("collections", VArr names)]) ∧
    length names = length infos ∧
    (∀ i info, infos !! i = Some info →
       names !! i = Some (default VUndefined (info !! "name"))).
Proof.
  exists ((λ c, get c "name") <$> infos).
  split; [reflexivity|]. split; [apply length_fmap|].
  intros i info Hi. rewrite list_lookup_fmap, Hi. cbn.
  by rewrite get_own_or_undefined.
Qed.

(** ** GET /api/dealers and GET /api/cooperatives *)

(** X11: /api/cooperatives is the route by collection name at
    "CoOpPROFILE", response for response; /api/dealers is that route at
    "DealerPROFILE" whenever the read succeeds, with the stored documents
    unchanged; and "CoOpPROFILE" is not a name of
    [VALID_COLLECTIONS]. *)
Theorem dealers_cooperatives_pass_through (conn : db) :
  cooperatives conn = collection_by_name conn "CoOpPROFILE" ∧
  (∀ data, conn "DealerPROFILE" = Resolved data →
     dealers conn = collection_by_name conn "DealerPROFILE" ∧
     dealers conn = success_data (VArr (VObj <$> data))) ∧
  "CoOpPROFILE" ∉ VALID_COLLECTIONS.
Proof.
  split; [reflexivity|]. split.
  - intros data H. unfold dealers, collection_by_name. by await H.
  - unfold VALID_COLLECTIONS. rewrite !not_elem_of_cons.
    repeat split; try discriminate. apply not_elem_of_nil.
Qed.

Lemma dealers_cooperatives_pass_through_witness :
  dealers dealer_store = collection_by_name dealer_store "DealerPROFILE" ∧
  dealers dealer_store = success_data (VArr (VObj <$> [dealer])).
Proof.
  apply (proj1 (proj2 (dealers_cooperatives_pass_through dealer_store))).
  reflexivity.
Defined.

(** ** GET /api/data-structure *)

Section first_occurrences.
Implicit Types seen ks : list string.

Let step seen (k : string) : list string :=
  if decide (k ∈ seen) then seen else seen ++ [k].

Lemma first_occurrences_fold_elem seen ks (k : string) :
  k ∈ foldl step seen ks ↔ k ∈ seen ∨ k ∈ ks.
Proof.
  revert seen. induction ks as [|x ks IH]; intros seen; cbn [foldl].
  - rewrite elem_of_nil. tauto.
  - rewrite IH, elem_of_cons. unfold step.
    destruct (decide (x ∈ seen)) as [Hx|Hx].
    + split; [tauto|]. intros [?|[->|?]]; auto.
    + rewrite elem_of_app, list_elem_of_singleton. tauto.
Qed.

Lemma first_occurrences_fold_NoDup seen ks :
  NoDup seen → NoDup (foldl step seen ks).
Proof.
  revert seen. induction ks as [|x ks IH]; intros seen Hseen; [done|].
  cbn [foldl]. apply IH. unfold step.
  destruct (decide (x ∈ seen)) as [Hx|Hx]; [done|].
  apply NoDup_app. repeat split; [done| |apply NoDup_singleton].
  intros y Hy ->%list_elem_of_singleton. done.
Qed.

Lemma first_occurrences_fold_sublist seen ks :
  foldl step seen ks `sublist_of` seen ++ ks.
Proof.
  revert seen. induction ks as [|x ks IH]; intros seen; cbn [foldl].
  - by rewrite app_nil_r.
  - unfold step. destruct (decide (x ∈ seen)) as [Hx|Hx].
    + etrans; [apply IH|]. apply sublist_app; [done|]. by apply sublist_cons.
    + etrans; [apply IH|]. by rewrite <- app_assoc.
Qed.

Lemma first_occurrences_fold_id seen ks :
  NoDup (seen ++ ks) → foldl step seen ks = seen ++ ks.
Proof.
  revert seen. induction ks as [|x ks IH]; intros seen Hnd; cbn [foldl].
  - by rewrite app_nil_r.
  - unfold step. destruct (decide (x ∈ seen)) as [Hx|Hx].
    + apply NoDup_app in Hnd as (_ & Hnd & _). destruct (Hnd x Hx).
      apply list_elem_of_here.
    + rewrite IH; rewrite <- app_assoc; done.
Qed.
End first_occurrences.

Lemma first_occurrences_elem (ks : list string) (k : string) :
  k ∈ first_occurrences ks ↔ k ∈ ks.
Proof.
  unfold first_occurrences. rewrite first_occurrences_fold_elem.
  rewrite elem_of_nil. tauto.
Qed.

Lemma first_occurrences_NoDup (ks : list string) :
  NoDup (first_occurrences ks).
Proof. apply first_occurrences_fold_NoDup, NoDup_nil_2. Qed.

Lemma first_occurrences_sublist (ks : list string) :
  first_occurrences ks `sublist_of` ks.
Proof. apply (first_occurrences_fold_sublist []). Qed.

Lemma first_occurrences_id (ks : list string) :
  NoDup ks → first_occurrences ks = ks.
Proof. intros H. by apply (first_occurrences_fold_id []). Qed.

Lemma Object_keys_Permutation (o : ordered_object) :
  Object_keys o ≡ₚ first_occurrences o.*1.
Proof.
  unfold Object_keys. rewrite merge_sort_Permutation.
  apply filter_app_complement.
Qed.

Lemma unordered_fold_fields (d : document) (o : ordered_object) (k : string) :
  is_Some (foldl (λ d kv, <[kv.1 := kv.2]> d) d o !! k) ↔
  is_Some (d !! k) ∨ k ∈ o.*1.
Proof.
  revert d. induction o as [|[x v] o IH]; intros d; cbn [foldl fmap list_fmap].
  - rewrite elem_of_nil. tauto.
  - rewrite IH, elem_of_cons. cbn.
    destruct (decide (x = k)) as [->|Hne].
    + rewrite lookup_insert_eq. split; [auto|]. intros _. left. by eexists.
    + rewrite lookup_insert_ne by done. split; [tauto|].
      intros [?|[->|?]]; tauto.
Qed.

Lemma unordered_fields (o : ordered_object) (k : string) :
  is_Some (unordered o !! k) ↔ k ∈ o.*1.
Proof.
  unfold unordered. rewrite unordered_fold_fields, lookup_empty.
  split; [|auto]. by intros [[? [=]]|?].
Qed.

#[local] Instance index_le_transitive : Transitive index_le.
Proof. intros a b c. unfold index_le. lia. Qed.

#[local] Instance index_le_total : Total index_le.
Proof. intros a b. unfold index_le. lia. Qed.

(** The three reads of the route, when they succeed. *)
Lemma data_structure_resolved
    (conn : ordered_db) (ps ds cs : list ordered_object) :
  conn "ParticipantPROFILE" = Resolved ps →
  conn "DealerPROFILE" = Resolved ds →
  conn "CoOpPROFILE" = Resolved cs →
  data_structure conn
  = json (literal [("participant", keys_or_none (head ps));
                   ("dealer", keys_or_none (head ds));
                   ("coop", keys_or_none (head cs))]).
Proof.
  intros Hp Hd Hc. unfold data_structure, findFirst.
  by rewrite Hp, Hd, Hc.
Qed.

(** X12: /api/data-structure answers, for each of the three collections,
    with the field names of its first document and nothing of the values:
    every name of the document is listed, exactly once, and nothing else
    is. *)
Theorem data_structure_field_names
    (conn : ordered_db) (ps ds cs : list ordered_object) :
  conn "ParticipantPROFILE" = Resolved ps →
  conn "DealerPROFILE" = Resolved ds →
  conn "CoOpPROFILE" = Resolved cs →
  ∃ pk dk ck,
    data_structure conn
    = json (literal [("participant", VArr (VStr <$> pk));
                     ("dealer", VArr (VStr <$> dk));
                     ("coop", VArr (VStr <$> ck))]) ∧
    Forall2 (λ first ks,
               NoDup ks ∧
               ∀ k, k ∈ ks ↔
                    ∃ o, first = Some o ∧ is_Some (unordered o !! k))
      [head ps; head ds; head cs] [pk; dk; ck].
Proof.
  intros Hp Hd Hc.
  exists (Object_keys (default [] (head ps))),
         (Object_keys (default [] (head ds))),
         (Object_keys (default [] (head cs))).
  split; [by apply data_structure_resolved|].
  assert (∀ first,
            NoDup (Object_keys (default [] first)) ∧
            ∀ k, k ∈ Object_keys (default [] first) ↔
                 ∃ o, first = Some o ∧ is_Some (unordered o !! k)) as Hkeys.
  { intros first. split.
    - rewrite Object_keys_Permutation. apply first_occurrences_NoDup.
    - intros k. rewrite Object_keys_Permutation, first_occurrences_elem.
      destruct first as [o|]; cbn.
      + rewrite <- unordered_fields. split; [eauto|]. by intros (? & [= <-] & ?).
      + rewrite elem_of_nil. split; [done|]. by intros (? & [=] & _). }
  repeat constructor; apply Hkeys.
Qed.

Lemma data_structure_field_names_witness :
  ∃ pk dk ck,
    data_structure ordered_store
    = json (literal [("participant", VArr (VStr <$> pk));
                     ("dealer", VArr (VStr <$> dk));
                     ("coop", VArr (VStr <$> ck))]) ∧
    Forall2 (λ first ks,
               NoDup ks ∧
               ∀ k, k ∈ ks ↔
                    ∃ o, first = Some o ∧ is_Some (unordered o !! k))
      [Some ordered_participant; None; Some ordered_cooperative] [pk; dk; ck].
Proof.
  apply (data_structure_field_names ordered_store
           [ordered_participant] [] [ordered_cooperative; []]);
    reflexivity.
Defined.

Lemma filter_none {A} (P : A → Prop) `{∀ x, Decision (P x)} (l : list A) :
  Forall (λ x, ¬ P x) l → filter P l = [].
Proof.
  induction 1 as [|x l Hx _ IH]; [done|]. by rewrite filter_cons_False.
Qed.

Lemma filter_all {A} (P : A → Prop) `{∀ x, Decision (P x)} (l : list A) :
  Forall P l → filter P l = l.
Proof.
  induction 1 as [|x l Hx _ IH]; [done|].
  by rewrite filter_cons_True, IH.
Qed.

Lemma Object_keys_in_order (first : option ordered_object) :
  keys_in_order first (Object_keys (default [] first)).
Proof.
  unfold keys_in_order. set (o := default [] first). split.
  - eexists _, _. split; [reflexivity|]. repeat split.
    + apply StronglySorted_merge_sort; apply _.
    + apply Forall_forall. intros k.
      rewrite merge_sort_Permutation, list_elem_of_filter. tauto.
    + apply Forall_forall. intros k [Hk _]%list_elem_of_filter.
      destruct (array_index k) as [z|]; [destruct Hk; by eexists | done].
    + etrans; [apply sublist_filter|]. apply first_occurrences_sublist.
  - intros Hnd Hnone. unfold Object_keys.
    rewrite first_occurrences_id by done.
    rewrite filter_none, filter_all; [done|..].
    + eapply Forall_impl; [done|]. intros k ->. by intros [? [=]].
    + eapply Forall_impl; [done|]. intros k ->. by intros [? [=]].
Qed.

(** X13: in each of the three entries of /api/data-structure the array
    indices among the field names come first, in ascending order, and the
    other names follow in the order in which the first document stores
    them; a document without array-index names and without repeated names
    has its names listed exactly as stored. *)
Theorem data_structure_names_in_order
    (conn : ordered_db) (ps ds cs : list ordered_object) :
  conn "ParticipantPROFILE" = Resolved ps →
  conn "DealerPROFILE" = Resolved ds →
  conn "CoOpPROFILE" = Resolved cs →
  ∃ pk dk ck,
    data_structure conn
    = json (literal [("participant", VArr (VStr <$> pk));
                     ("dealer", VArr (VStr <$> dk));
                     ("coop", VArr (VStr <$> ck))]) ∧
    Forall2 keys_in_order [head ps; head ds; head cs] [pk; dk; ck].
Proof.
  intros Hp Hd Hc.
  exists (Object_keys (default [] (head ps))),
         (Object_keys (default [] (head ds))),
         (Object_keys (default [] (head cs))).
  split; [by apply data_structure_resolved|].
  repeat constructor; apply Object_keys_in_order.
Qed.

Lemma data_structure_names_in_order_witness :
  ∃ pk dk ck,
    data_structure ordered_store
    = json (literal [("participant", VArr (VStr <$> pk));
                     ("dealer", VArr (VStr <$> dk));
                     ("coop", VArr (VStr <$> ck))]) ∧
    Forall2 keys_in_order
      [Some ordered_participant; None; Some ordered_cooperative] [pk; dk; ck].
Proof.
  apply (data_structure_names_in_order ordered_store
           [ordered_participant] [] [ordered_cooperative; []]);
    reflexivity.
Defined.

(** The response for [ordered_store]: the indices 2 and 10 of the
    participant in numeric order before its other names, no dealer, and
    the names of the cooperative as stored. *)
Example data_structure_example :
  data_structure ordered_store
  = json (literal
      [("participant",
        VArr [VStr "2"; VStr "10"; VStr "_id"; VStr "ID";
              VStr "ParticipantNAME"]);
       ("dealer", VArr []);
       ("coop", VArr [VStr "_id"; VStr "CoOpNAME"])]).
Proof. vm_compute. reflexivity. Qed.



(** ** What the aggregating routes do not show *)

Lemma countDocuments_same_size (conn conn' : db) (name : string) :
  same_size (conn name) (conn' name) →
  countDocuments conn name = countDocuments conn' name.
Proof.
  unfold countDocuments, same_size.
  destruct (conn name), (conn' name); try done. cbn. by intros ->.
Qed.

(** X15: /api/market-surveys shows nothing of the six collections but
    their sizes: two stores whose survey collections have pairwise the
    same number of documents, or fail alike, get the same response. *)
Theorem market_surveys_only_sizes (conn conn' : db) :
  (∀ name, name ∈ survey_collections →
     same_size (conn name) (conn' name)) →
  market_surveys conn = market_surveys conn'.
Proof.
  intros H. unfold market_surveys.
  rewrite !(countDocuments_same_size conn conn'); [done|..];
    apply H; unfold survey_collections; rewrite !elem_of_cons; auto 10.
Qed.

Lemma market_surveys_only_sizes_witness :
  market_surveys survey_store = market_surveys two_sizes_store.
Proof.
  apply market_surveys_only_sizes. intros name Hin.
  unfold survey_collections in Hin.
  repeat (apply elem_of_cons in Hin as [-> | Hin]);
    [.. | by apply elem_of_nil in Hin]; reflexivity.
Defined.

Lemma same_fields_get (ks : list string) (d d' : document) (k : string) :
  same_fields ks d d' → k ∈ ks → get d k = get d' k.
Proof. intros H Hk. unfold get. by rewrite (H k Hk). Qed.

Lemma leverage_step_same_fields (acc : leverage_acc) (item item' : document) :
  same_fields ["Entity"; "Amount"] item item' →
  leverage_step acc item = leverage_step acc item'.
Proof.
  intros H. unfold leverage_step, amount.
  rewrite (same_fields_get _ _ _ "Entity" H) by (rewrite !elem_of_cons; auto).
  by rewrite (same_fields_get _ _ _ "Amount" H) by (rewrite !elem_of_cons; auto).
Qed.

Lemma productivity_step_same_fields
    (acc : productivity_acc) (item item' : document) :
  same_fields ["Sector"; "BaseLine"; "Early Productivity Assessment";
               "% Growth"] item item' →
  productivity_step acc item = productivity_step acc item'.
Proof.
  intros H. unfold productivity_step.
  rewrite (same_fields_get _ _ _ "Sector" H) by (rewrite !elem_of_cons; auto).
  rewrite (same_fields_get _ _ _ "BaseLine" H) by (rewrite !elem_of_cons; auto).
  rewrite (same_fields_get _ _ _ "Early Productivity Assessment" H)
    by (rewrite !elem_of_cons; auto).
  by rewrite (same_fields_get _ _ _ "% Growth" H)
    by (rewrite !elem_of_cons; auto 6).
Qed.

Lemma foldl_Forall2 {A B} (R : B → B → Prop) (f : A → B → A)
    (a : A) (l l' : list B) :
  (∀ a x y, R x y → f a x = f a y) →
  Forall2 R l l' → foldl f a l = foldl f a l'.
Proof.
  intros Hf H. revert a.
  induction H as [|x y l l' Hxy _ IH]; intros a; [done|].
  cbn [foldl]. by rewrite (Hf a x y Hxy), IH.
Qed.

(** X16: /api/leverages shows nothing of a document but its [Entity] and
    [Amount], and /api/productivity nothing but the four charted fields:
    two collections whose documents agree, one by one, on these fields
    get the same response, whatever else the documents hold. *)
Theorem aggregates_only_named_fields
    (conn conn' : db) (l l' p p' : list document) :
  conn "Leverages" = Resolved l → conn' "Leverages" = Resolved l' →
  conn "Productivity" = Resolved p → conn' "Productivity" = Resolved p' →
  (Forall2 (same_fields ["Entity"; "Amount"]) l l' →
   leverages conn = leverages conn') ∧
  (Forall2 (same_fields ["Sector"; "BaseLine";
                         "Early Productivity Assessment"; "% Growth"]) p p' →
   productivity conn = productivity conn').
Proof.
  intros Hl Hl' Hp Hp'. split; intros H.
  - unfold leverages. await Hl. await Hl'. unfold leverageStats.
    by rewrite (foldl_Forall2 _ leverage_step _ l l'
                  (λ a x y, leverage_step_same_fields a x y) H).
  - unfold productivity. await Hp. await Hp'. unfold productivityData.
    by rewrite (foldl_Forall2 _ productivity_step _ p p'
                  (λ a x y, productivity_step_same_fields a x y) H).
Qed.

Lemma aggregates_only_named_fields_witness :
  leverages leverage_store = leverages noted_store ∧
  productivity productivity_store = productivity noted_store.
Proof.
  destruct (aggregates_only_named_fields leverage_store noted_store
              [named_unknown; without_entity; bank_record]
              [named_unknown; without_entity; bank_with_notes]
              [] [maize_with_notes; poultry]
              eq_refl eq_refl eq_refl eq_refl) as [Hl _].
  destruct (aggregates_only_named_fields productivity_store noted_store
              [] [named_unknown; without_entity; bank_with_notes]
              [maize; poultry] [maize_with_notes; poultry]
              eq_refl eq_refl eq_refl eq_refl) as [_ Hp].
  split.
  - apply Hl. repeat constructor; intros k Hk;
      repeat (apply elem_of_cons in Hk as [-> | Hk]);
      try reflexivity; by apply elem_of_nil in Hk.
  - apply Hp. repeat constructor; intros k Hk;
      repeat (apply elem_of_cons in Hk as [-> | Hk]);
      try reflexivity; by apply elem_of_nil in Hk.
Defined.
